(** * Liquid Gold: the ledger and account-state engine of [app.py]

    A shallow embedding of the Flask application's models and request
    handlers, and the properties of its money-movement operations.

    Conventions of the embedding.
    - A [db.Float] column is an exact rational ([Q]); binary rounding of
      the Python floats is not represented.  Arithmetic is written in the
      order the source performs it.
    - A table whose rows are fetched by primary key is a [gmap nat _];
      a table that is only appended to, scanned or bulk-deleted is a list
      in insertion order.
    - A handler is a function [State -> State * Response]: the first
      component is the database after the request (after [commit], or the
      untouched database when the handler returns an error before it),
      the second the JSON answer reduced to success or the error issued.
    - [current_user] is the [uid] argument of a handler; the
      [@login_required] decorator is the initial lookup of [uid].
    - Random tokens ([gen_reference], [gen_account_number]), free text
      ([description], [message], [username], [bio], [phone]) and
      timestamps are left out of the rows; the account number drawn for a
      new account is an argument of [oauth2_callback].
    - Request strings arrive already stripped; numbers arrive already
      converted by [float(...)].
    - The tables [budget_categories] and [activity_log] and the handlers
      that only read, or only write fields left out here (notifications
      read, budget update, profile update), are not represented. *)

From Stdlib Require Import QArith Qround Qabs Lqa ZArith.
From stdpp Require Import gmap strings list fin_maps.

Open Scope Q_scope.

(** ** Decidable comparisons on amounts *)

#[global] Instance Qle_Decision (x y : Q) : Decision (x <= y).
Proof.
  destruct (Qlt_le_dec y x) as [H | H].
  - right. apply Qlt_not_le. exact H.
  - left. exact H.
Defined.

#[global] Instance Qlt_Decision (x y : Q) : Decision (x < y).
Proof.
  destruct (Qlt_le_dec x y) as [H | H].
  - left. exact H.
  - right. apply Qle_not_lt. exact H.
Defined.

(** ** [round(x, 2)]

    Python rounds to the closest multiple of [10 ** -2] and takes the even
    multiple when two are equally close. *)

Definition round_half_even (q : Q) : Z :=
  let f := Qfloor q in
  match Qcompare (q - inject_Z f) (1 # 2) with
  | Lt => f
  | Gt => (f + 1)%Z
  | Eq => if Z.even f then f else (f + 1)%Z
  end.

Definition round2 (q : Q) : Q := inject_Z (round_half_even (q * 100)) / 100.

(** [round(x, 1)] *)
Definition round1 (q : Q) : Q := inject_Z (round_half_even (q * 10)) / 10.

(** ** Models *)

Module User.

Record t := mk {
    email : string;
    account_number : string;
    balance : Q;
    savings_balance : Q;
    tier : string;
    xp : Z;
    streak : Z;
    last_login : option Z;
    total_sent : Q;
    total_received : Q;
    total_txn_count : Z
  }.

Definition set_balance (v : Q) (u : t) : t :=
    mk (email u) (account_number u) v (savings_balance u) (tier u) (xp u)
       (streak u) (last_login u) (total_sent u) (total_received u)
       (total_txn_count u).

Definition set_savings_balance (v : Q) (u : t) : t :=
    mk (email u) (account_number u) (balance u) v (tier u) (xp u)
       (streak u) (last_login u) (total_sent u) (total_received u)
       (total_txn_count u).

Definition set_tier (v : string) (u : t) : t :=
    mk (email u) (account_number u) (balance u) (savings_balance u) v (xp u)
       (streak u) (last_login u) (total_sent u) (total_received u)
       (total_txn_count u).

Definition set_xp (v : Z) (u : t) : t :=
    mk (email u) (account_number u) (balance u) (savings_balance u) (tier u) v
       (streak u) (last_login u) (total_sent u) (total_received u)
       (total_txn_count u).

Definition set_streak (v : Z) (u : t) : t :=
    mk (email u) (account_number u) (balance u) (savings_balance u) (tier u)
       (xp u) v (last_login u) (total_sent u) (total_received u)
       (total_txn_count u).

Definition set_last_login (v : option Z) (u : t) : t :=
    mk (email u) (account_number u) (balance u) (savings_balance u) (tier u)
       (xp u) (streak u) v (total_sent u) (total_received u)
       (total_txn_count u).

Definition set_total_sent (v : Q) (u : t) : t :=
    mk (email u) (account_number u) (balance u) (savings_balance u) (tier u)
       (xp u) (streak u) (last_login u) v (total_received u)
       (total_txn_count u).

Definition set_total_received (v : Q) (u : t) : t :=
    mk (email u) (account_number u) (balance u) (savings_balance u) (tier u)
       (xp u) (streak u) (last_login u) (total_sent u) v
       (total_txn_count u).

Definition set_total_txn_count (v : Z) (u : t) : t :=
    mk (email u) (account_number u) (balance u) (savings_balance u) (tier u)
       (xp u) (streak u) (last_login u) (total_sent u) (total_received u) v.

  (** The list [tiers] of [award_xp], highest threshold first. *)
Definition tiers : list (string * Z) :=
    [("diamond", 5000%Z); ("platinum", 2000%Z); ("gold", 800%Z);
     ("silver", 200%Z)].

  (** The [for name, threshold in tiers: ... break] loop: the first entry
      whose threshold is reached wins, otherwise the value assigned before
      the loop stays. *)
Fixpoint first_tier (x : Z) (ts : list (string * Z)) (current : string)
    : string :=
    match ts with
    | [] => current
    | (name, threshold) :: rest =>
        if (threshold <=? x)%Z then name else first_tier x rest current
    end.

Definition award_xp (points : Z) (u : t) : t :=
    let u1 := set_xp (xp u + points)%Z u in
    let u2 := set_tier "bronze" u1 in
    set_tier (first_tier (xp u2) tiers (tier u2)) u2.

  (** Column defaults of a new row, with the constructor arguments of
      [oauth2_callback]. *)
Definition new (email account_number : string) (today : Z) : t :=
    mk email account_number 1000 0 "bronze" 0%Z 0%Z (Some today) 0 0 0%Z.

End User.

Module Transaction.

Record t := mk {
    sender_id : option nat;
    receiver_id : option nat;
    amount : Q;
    type : string;
    category : string;
    fee : Q
  }.

Definition set_receiver_id (v : option nat) (x : t) : t :=
    mk (sender_id x) v (amount x) (type x) (category x) (fee x).

End Transaction.

(** Titles of the notifications the handlers emit. *)
Inductive Title :=
| Welcome              (* 'Welcome to Liquid Gold!' *)
| DayStreak (n : Z)    (* '{streak}-Day Streak!' *)
| DepositSuccessful    (* 'Deposit Successful' *)
| WithdrawalInitiated  (* 'Withdrawal Initiated' *)
| MoneyReceived        (* 'Money Received!' *)
| TransferSuccessful   (* 'Transfer Successful' *)
| GoalCreated          (* 'Goal Created!' *)
| GoalAchieved         (* 'Goal Achieved!' *)
| SplitBillAdded       (* 'Split Bill' *)
| SplitPayment.        (* 'Split Payment' *)

#[global] Instance Title_eq_dec : EqDecision Title.
Proof. solve_decision. Defined.

Module Notification.

Record t := mk {
    user_id : nat;
    title : Title;
    type : string
  }.

End Notification.

Module SavingsGoal.

Record t := mk {
    user_id : nat;
    name : string;
    target : Q;
    current : Q
  }.

Definition set_current (v : Q) (g : t) : t :=
    mk (user_id g) (name g) (target g) v.

End SavingsGoal.

Module Contact.

Record t := mk {
    user_id : nat;
    contact_id : nat;
    nickname : string
  }.

End Contact.

Module ScheduledPayment.

Record t := mk {
    sender_id : nat;
    receiver_id : nat;
    amount : Q;
    frequency : string;
    next_date : string;
    active : bool
  }.

Definition set_active (v : bool) (p : t) : t :=
    mk (sender_id p) (receiver_id p) (amount p) (frequency p) (next_date p) v.

End ScheduledPayment.

Module SplitBill.

Record t := mk {
    creator_id : nat;
    title : string;
    total_amount : Q
  }.

End SplitBill.

Module SplitBillMember.

Record t := mk {
    bill_id : nat;
    user_id : nat;
    amount_owed : Q;
    paid : bool
  }.

Definition set_paid (v : bool) (m : t) : t :=
    mk (bill_id m) (user_id m) (amount_owed m) v.

End SplitBillMember.

(** ** The database *)

Record State := mkState {
  users : gmap nat User.t;
  transactions : list Transaction.t;
  notifications : list Notification.t;
  savings_goals : gmap nat SavingsGoal.t;
  contacts : gmap nat Contact.t;
  scheduled_payments : gmap nat ScheduledPayment.t;
  split_bills : gmap nat SplitBill.t;
  split_bill_members : list SplitBillMember.t
}.

Definition set_users (v : gmap nat User.t) (s : State) : State :=
  mkState v (transactions s) (notifications s) (savings_goals s) (contacts s)
          (scheduled_payments s) (split_bills s) (split_bill_members s).

Definition set_transactions (v : list Transaction.t) (s : State) : State :=
  mkState (users s) v (notifications s) (savings_goals s) (contacts s)
          (scheduled_payments s) (split_bills s) (split_bill_members s).

Definition set_notifications (v : list Notification.t) (s : State) : State :=
  mkState (users s) (transactions s) v (savings_goals s) (contacts s)
          (scheduled_payments s) (split_bills s) (split_bill_members s).

Definition set_savings_goals (v : gmap nat SavingsGoal.t) (s : State) : State :=
  mkState (users s) (transactions s) (notifications s) v (contacts s)
          (scheduled_payments s) (split_bills s) (split_bill_members s).

Definition set_contacts (v : gmap nat Contact.t) (s : State) : State :=
  mkState (users s) (transactions s) (notifications s) (savings_goals s) v
          (scheduled_payments s) (split_bills s) (split_bill_members s).

Definition set_scheduled_payments (v : gmap nat ScheduledPayment.t) (s : State)
  : State :=
  mkState (users s) (transactions s) (notifications s) (savings_goals s)
          (contacts s) v (split_bills s) (split_bill_members s).

Definition set_split_bills (v : gmap nat SplitBill.t) (s : State) : State :=
  mkState (users s) (transactions s) (notifications s) (savings_goals s)
          (contacts s) (scheduled_payments s) v (split_bill_members s).

Definition set_split_bill_members (v : list SplitBillMember.t) (s : State)
  : State :=
  mkState (users s) (transactions s) (notifications s) (savings_goals s)
          (contacts s) (scheduled_payments s) (split_bills s) v.

Definition empty_db : State := mkState ∅ [] [] ∅ ∅ ∅ ∅ [].

(** The answers of the handlers: [Success] for [{'success': True, ...}],
    otherwise the error issued. *)
Inductive Error :=
| LoginRequired          (* @login_required turned the request away *)
| AmountOutOfRange       (* 'Amount must be between 1 and 1,00,000' *)
| InvalidAmount          (* 'Amount must be positive' *)
| LimitExceeded          (* 'Single transfer limit is 50,000' *)
| RecipientRequired      (* '... email or account number required' *)
| RecipientNotFound      (* 'No user found ...', 'Recipient not found' *)
| SelfTransferNotAllowed (* 'Cannot transfer to yourself' *)
| InsufficientFunds      (* 'Insufficient balance ...' *)
| InsufficientOrInvalid  (* 'Insufficient balance or invalid amount' *)
| InsufficientSavings    (* 'Insufficient savings' *)
| FieldsRequired         (* 'Name and target amount required', ... *)
| NotFound               (* 'Goal not found', 'Not found' *)
| UserNotFound           (* 'User not found' *)
| CannotAddYourself      (* 'Cannot add yourself' *)
| AlreadyInContacts      (* 'Already in contacts' *)
| NothingToPay           (* 'Nothing to pay or already paid' *)
| ServerError.           (* an uncaught exception: nothing is committed *)

Inductive Response :=
| Success
| Failure (e : Error).

#[global] Instance Error_eq_dec : EqDecision Error.
Proof. solve_decision. Defined.

#[global] Instance Response_eq_dec : EqDecision Response.
Proof. solve_decision. Defined.

(** ** Helpers *)

(** The key SQLite gives the next row of a table with an integer primary
    key: one more than the largest key in use. *)
Definition next_id {V : Type} (m : gmap nat V) : nat :=
  S (max_list (map fst (map_to_list m))).

(** [db.select(User).where((User.email == identifier) |
    (User.account_number == identifier))], reduced to the id of the row
    found.  The query has no [ORDER BY]: should two rows match, the one
    the traversal of the table meets first is returned. *)
Definition find_user (identifier : string) (s : State) : option nat :=
  fst <$> List.find
    (fun kv => bool_decide (User.email (snd kv) = identifier)
               || bool_decide (User.account_number (snd kv) = identifier))
    (map_to_list (users s)).

(** [db.select(User).where(User.email == email)] *)
Definition find_user_by_email (email : string) (s : State) : option nat :=
  fst <$> List.find (fun kv => bool_decide (User.email (snd kv) = email))
                    (map_to_list (users s)).

(** An attribute update of the user object with id [uid] in the session. *)
Definition update_user (uid : nat) (f : User.t -> User.t) (s : State) : State :=
  set_users (alter f uid (users s)) s.

Definition add_transaction (x : Transaction.t) (s : State) : State :=
  set_transactions (transactions s ++ [x]) s.

Definition add_notification (uid : nat) (title : Title) (ntype : string)
    (s : State) : State :=
  set_notifications (notifications s ++ [Notification.mk uid title ntype]) s.

(** [Contact.query.filter_by(user_id=..., contact_id=...).first()] is not
    [None]. *)
Definition contact_exists (owner contact : nat) (s : State) : bool :=
  existsb (fun kv => bool_decide (Contact.user_id (snd kv) = owner)
                     && bool_decide (Contact.contact_id (snd kv) = contact))
          (map_to_list (contacts s)).

(** [SavingsGoal.query.filter_by(id=goal_id, user_id=uid).first()] *)
Definition find_goal (goal_id uid : nat) (s : State) : option SavingsGoal.t :=
  match savings_goals s !! goal_id with
  | Some g => if decide (SavingsGoal.user_id g = uid) then Some g else None
  | None => None
  end.

(** The ['pct'] entry of [SavingsGoal.to_dict]: the share of the target
    that has been saved, capped at 100, to one decimal. *)
Definition to_dict_pct (g : SavingsGoal.t) : Q :=
  let share :=
    if decide (0 < SavingsGoal.target g)
    then SavingsGoal.current g / SavingsGoal.target g * 100
    else 0 in
  let pct := if decide (100 < share) then 100 else share in  (* min(_, 100) *)
  round1 pct.

(** ** Login: [oauth2_callback] after the provider has answered *)

(** The branch for an account that exists: the login streak. *)
Definition login_streak (today : Z) (uid : nat) (s : State) : State :=
  match users s !! uid with
  | None => s
  | Some user =>
      let yesterday := (today - 1)%Z in
      let s1 :=
        if decide (User.last_login user = Some yesterday) then
          let s2 := update_user uid
                      (fun u => User.set_streak (User.streak u + 1)%Z u) s in
          let s3 := update_user uid (User.award_xp 10) s2 in
          let streak := (User.streak user + 1)%Z in
          if decide ((streak mod 7)%Z = 0%Z) then
            update_user uid (User.award_xp 50)
              (add_notification uid (DayStreak streak) "success" s3)
          else s3
        else if decide (User.last_login user ≠ Some today) then
          update_user uid (User.set_streak 1) s
        else s
      in
      update_user uid (User.set_last_login (Some today)) s1
  end.

Definition oauth2_callback (email account_number : string) (today : Z)
    (s : State) : State * Response :=
  match find_user_by_email email s with
  | None =>
      let uid := next_id (users s) in
      let s1 := set_users (<[uid := User.new email account_number today]>
                             (users s)) s in
      let s2 := update_user uid (User.award_xp 100) s1 in
      (add_notification uid Welcome "success" s2, Success)
  | Some uid => (login_streak today uid s, Success)
  end.

(** ** Balance and money *)

Definition api_deposit (uid : nat) (amount : Q) (s : State)
  : State * Response :=
  match users s !! uid with
  | None => (s, Failure LoginRequired)
  | Some _ =>
      if decide (amount <= 0 ∨ 100000 < amount) then
        (s, Failure AmountOutOfRange)
      else
        let s1 := update_user uid
          (fun u => User.set_balance (User.balance u + amount) u) s in
        let s2 := update_user uid
          (fun u => User.set_total_received (User.total_received u + amount) u)
          s1 in
        let s3 := add_transaction
          (Transaction.mk None (Some uid) amount "deposit" "other" 0) s2 in
        let s4 := update_user uid (User.award_xp 5) s3 in
        (add_notification uid DepositSuccessful "success" s4, Success)
  end.

Definition api_withdraw (uid : nat) (amount : Q) (s : State)
  : State * Response :=
  match users s !! uid with
  | None => (s, Failure LoginRequired)
  | Some user =>
      if decide (amount <= 0) then (s, Failure InvalidAmount)
      else if decide (User.balance user < amount) then
        (s, Failure InsufficientFunds)
      else
        let s1 := update_user uid
          (fun u => User.set_balance (User.balance u - amount) u) s in
        let s2 := update_user uid
          (fun u => User.set_total_sent (User.total_sent u + amount) u) s1 in
        let s3 := add_transaction
          (Transaction.mk (Some uid) None amount "withdrawal" "other" 0) s2 in
        (add_notification uid WithdrawalInitiated "info" s3, Success)
  end.

(** [round(amount * 0.001, 2) if amount > 1000 else 0.0] *)
Definition transfer_fee (amount : Q) : Q :=
  if decide (1000 < amount) then round2 (amount * (1 # 1000)) else 0.

Definition api_transfer (uid : nat) (identifier : string) (amount : Q)
    (category : string) (s : State) : State * Response :=
  match users s !! uid with
  | None => (s, Failure LoginRequired)
  | Some user =>
      if decide (amount <= 0) then (s, Failure InvalidAmount)
      else if decide (50000 < amount) then (s, Failure LimitExceeded)
      else if decide (identifier = "") then (s, Failure RecipientRequired)
      else
        match find_user identifier s with
        | None => (s, Failure RecipientNotFound)
        | Some rid =>
            if decide (rid = uid) then (s, Failure SelfTransferNotAllowed)
            else
              let fee := transfer_fee amount in
              let total_deduct := amount + fee in
              if decide (User.balance user < total_deduct) then
                (s, Failure InsufficientFunds)
              else
                let s1 := update_user uid
                  (fun u => User.set_balance (User.balance u - total_deduct) u)
                  s in
                let s2 := update_user uid
                  (fun u => User.set_total_sent (User.total_sent u + amount) u)
                  s1 in
                let s3 := update_user uid
                  (fun u => User.set_total_txn_count
                              (User.total_txn_count u + 1)%Z u) s2 in
                let s4 := update_user rid
                  (fun u => User.set_balance (User.balance u + amount) u) s3 in
                let s5 := update_user rid
                  (fun u => User.set_total_received
                              (User.total_received u + amount) u) s4 in
                let s6 := update_user rid
                  (fun u => User.set_total_txn_count
                              (User.total_txn_count u + 1)%Z u) s5 in
                let s7 := add_transaction
                  (Transaction.mk (Some uid) (Some rid) amount "transfer"
                                  category fee) s6 in
                let s8 := update_user uid (User.award_xp 15) s7 in
                let s9 := add_notification rid MoneyReceived "success" s8 in
                let s10 :=
                  add_notification uid TransferSuccessful "success" s9 in
                let s11 :=
                  if contact_exists uid rid s10 then s10
                  else set_contacts
                         (<[next_id (contacts s10) := Contact.mk uid rid ""]>
                            (contacts s10)) s10 in
                (s11, Success)
        end
  end.

(** ** Savings *)

Definition api_savings_create (uid : nat) (name : string) (target : Q)
    (s : State) : State * Response :=
  match users s !! uid with
  | None => (s, Failure LoginRequired)
  | Some _ =>
      if decide (name = "" ∨ target <= 0) then (s, Failure FieldsRequired)
      else
        let s1 := set_savings_goals
          (<[next_id (savings_goals s) := SavingsGoal.mk uid name target 0]>
             (savings_goals s)) s in
        let s2 := update_user uid (User.award_xp 20) s1 in
        (add_notification uid GoalCreated "info" s2, Success)
  end.

Definition api_savings_deposit (uid goal_id : nat) (amount : Q) (s : State)
  : State * Response :=
  match users s !! uid with
  | None => (s, Failure LoginRequired)
  | Some user =>
      match find_goal goal_id uid s with
      | None => (s, Failure NotFound)
      | Some g =>
          if decide (amount <= 0 ∨ User.balance user < amount) then
            (s, Failure InsufficientOrInvalid)
          else
            let s1 := update_user uid
              (fun u => User.set_balance (User.balance u - amount) u) s in
            let s2 := update_user uid
              (fun u => User.set_savings_balance
                          (User.savings_balance u + amount) u) s1 in
            let s3 := set_savings_goals
              (alter (fun g => SavingsGoal.set_current
                                 (SavingsGoal.current g + amount) g)
                     goal_id (savings_goals s2)) s2 in
            let s4 := add_transaction
              (Transaction.mk (Some uid) None amount "savings" "other" 0) s3 in
            let s5 := update_user uid (User.award_xp 10) s4 in
            let s6 :=
              if decide (SavingsGoal.target g
                         <= SavingsGoal.current g + amount) then
                update_user uid (User.award_xp 100)
                  (add_notification uid GoalAchieved "success" s5)
              else s5 in
            (s6, Success)
      end
  end.

Definition api_savings_withdraw (uid goal_id : nat) (amount : Q) (s : State)
  : State * Response :=
  match users s !! uid with
  | None => (s, Failure LoginRequired)
  | Some _ =>
      match find_goal goal_id uid s with
      | None => (s, Failure InsufficientSavings)
      | Some g =>
          if decide (SavingsGoal.current g < amount) then
            (s, Failure InsufficientSavings)
          else
            let s1 := update_user uid
              (fun u => User.set_balance (User.balance u + amount) u) s in
            let s2 := update_user uid
              (fun u => User.set_savings_balance
                          (User.savings_balance u - amount) u) s1 in
            let s3 := set_savings_goals
              (alter (fun g => SavingsGoal.set_current
                                 (SavingsGoal.current g - amount) g)
                     goal_id (savings_goals s2)) s2 in
            (s3, Success)
      end
  end.

Definition api_savings_delete (uid goal_id : nat) (s : State)
  : State * Response :=
  match users s !! uid with
  | None => (s, Failure LoginRequired)
  | Some _ =>
      match find_goal goal_id uid s with
      | None => (s, Failure NotFound)
      | Some g =>
          let s1 :=
            if decide (0 < SavingsGoal.current g) then
              update_user uid
                (fun u => User.set_savings_balance
                            (User.savings_balance u - SavingsGoal.current g) u)
                (update_user uid
                   (fun u => User.set_balance
                               (User.balance u + SavingsGoal.current g) u) s)
            else s in
          (set_savings_goals (delete goal_id (savings_goals s1)) s1, Success)
      end
  end.

(** ** Contacts *)

Definition api_contact_add (uid : nat) (identifier nickname : string)
    (s : State) : State * Response :=
  match users s !! uid with
  | None => (s, Failure LoginRequired)
  | Some _ =>
      if decide (identifier = "") then (s, Failure FieldsRequired)
      else
        match find_user identifier s with
        | None => (s, Failure UserNotFound)
        | Some cid =>
            if decide (cid = uid) then (s, Failure CannotAddYourself)
            else if contact_exists uid cid s then
              (s, Failure AlreadyInContacts)
            else
              (set_contacts
                 (<[next_id (contacts s) := Contact.mk uid cid nickname]>
                    (contacts s)) s, Success)
        end
  end.

Definition api_contact_delete (uid cid : nat) (s : State)
  : State * Response :=
  match users s !! uid with
  | None => (s, Failure LoginRequired)
  | Some _ =>
      match contacts s !! cid with
      | Some c =>
          if decide (Contact.user_id c = uid) then
            (set_contacts (delete cid (contacts s)) s, Success)
          else (s, Failure NotFound)
      | None => (s, Failure NotFound)
      end
  end.

(** ** Scheduled payments *)

Definition api_sched_create (uid : nat) (identifier : string) (amount : Q)
    (frequency next_date : string) (s : State) : State * Response :=
  match users s !! uid with
  | None => (s, Failure LoginRequired)
  | Some _ =>
      if decide (identifier = "" ∨ amount <= 0 ∨ next_date = "") then
        (s, Failure FieldsRequired)
      else
        match find_user identifier s with
        | None => (s, Failure RecipientNotFound)
        | Some rid =>
            let s1 := set_scheduled_payments
              (<[next_id (scheduled_payments s) :=
                   ScheduledPayment.mk uid rid amount frequency next_date true]>
                 (scheduled_payments s)) s in
            (update_user uid (User.award_xp 10) s1, Success)
        end
  end.

Definition api_sched_delete (uid sid : nat) (s : State) : State * Response :=
  match users s !! uid with
  | None => (s, Failure LoginRequired)
  | Some _ =>
      match scheduled_payments s !! sid with
      | Some sp =>
          if decide (ScheduledPayment.sender_id sp = uid) then
            (set_scheduled_payments
               (alter (ScheduledPayment.set_active false) sid
                      (scheduled_payments s)) s, Success)
          else (s, Failure NotFound)
      | None => (s, Failure NotFound)
      end
  end.

(** ** Split bills *)

(** One turn of the loop over [members_raw]: a member that resolves to an
    account gets a row and a notification, any other is skipped. *)
Definition split_add_member (bill_id : nat) (m : string * Q) (s : State)
  : State :=
  match find_user (fst m) s with
  | Some u =>
      add_notification u SplitBillAdded "warning"
        (set_split_bill_members
           (split_bill_members s ++ [SplitBillMember.mk bill_id u (snd m) false])
           s)
  | None => s
  end.

Definition api_split_create (uid : nat) (title : string) (total : Q)
    (members_raw : list (string * Q)) (s : State) : State * Response :=
  match users s !! uid with
  | None => (s, Failure LoginRequired)
  | Some _ =>
      if decide (title = "" ∨ total <= 0 ∨ members_raw = []) then
        (s, Failure FieldsRequired)
      else
        let bill_id := next_id (split_bills s) in
        let s1 := set_split_bills
          (<[bill_id := SplitBill.mk uid title total]> (split_bills s)) s in
        let s2 := set_split_bill_members
          (split_bill_members s1 ++ [SplitBillMember.mk bill_id uid 0 true])
          s1 in
        let s3 := fold_left (fun acc m => split_add_member bill_id m acc)
                            members_raw s2 in
        (update_user uid (User.award_xp 15) s3, Success)
  end.

(** [SplitBillMember.query.filter_by(bill_id=..., user_id=..., paid=False)
    .first()]: the position and the row. *)
Definition find_unpaid (bill_id uid : nat) (s : State)
  : option (nat * SplitBillMember.t) :=
  list_find (fun m => SplitBillMember.bill_id m = bill_id
                      ∧ SplitBillMember.user_id m = uid
                      ∧ SplitBillMember.paid m = false)
            (split_bill_members s).

Definition api_split_pay (uid bill_id : nat) (s : State) : State * Response :=
  match users s !! uid with
  | None => (s, Failure LoginRequired)
  | Some user =>
      match find_unpaid bill_id uid s with
      | None => (s, Failure NothingToPay)
      | Some (i, membership) =>
          let amount := SplitBillMember.amount_owed membership in
          if decide (User.balance user < amount) then
            (s, Failure InsufficientFunds)
          else
            match split_bills s !! bill_id with
            | None => (s, Failure ServerError)
            | Some bill =>
                let s1 := update_user uid
                  (fun u => User.set_balance (User.balance u - amount) u) s in
                match users s1 !! SplitBill.creator_id bill with
                | None => (s, Failure ServerError)
                | Some _ =>
                    let s2 := update_user (SplitBill.creator_id bill)
                      (fun u => User.set_balance (User.balance u + amount) u)
                      s1 in
                    let s3 := add_transaction
                      (Transaction.mk (Some uid)
                                      (Some (SplitBill.creator_id bill))
                                      amount "split" "other" 0) s2 in
                    let s4 := set_split_bill_members
                      (<[i := SplitBillMember.set_paid true membership]>
                         (split_bill_members s3)) s3 in
                    (add_notification (SplitBill.creator_id bill) SplitPayment
                                      "success" s4, Success)
                end
            end
      end
  end.

(** ** Account deletion

    [user] is the account that was logged in when the request arrived. *)

Definition api_delete_account (uid : nat) (s : State) : State * Response :=
  match users s !! uid with
  | None => (s, Failure LoginRequired)
  | Some _ =>
      (* Transaction.query.filter_by(receiver_id=user.id).delete() *)
      let s1 := set_transactions
        (filter (fun x => Transaction.receiver_id x ≠ Some uid)
                (transactions s)) s in
      (* SplitBillMember.query.filter_by(user_id=user.id).delete() *)
      let s2 := set_split_bill_members
        (filter (fun m => SplitBillMember.user_id m ≠ uid)
                (split_bill_members s1)) s1 in
      (* db.session.delete(user): relationships of User *)
      (* transactions_sent, cascade *)
      let s3 := set_transactions
        (filter (fun x => Transaction.sender_id x ≠ Some uid)
                (transactions s2)) s2 in
      (* transactions_received, no cascade: the key is set to NULL *)
      let s4 := set_transactions
        (map (fun x => if decide (Transaction.receiver_id x = Some uid)
                       then Transaction.set_receiver_id None x else x)
             (transactions s3)) s3 in
      (* notifications, cascade *)
      let s5 := set_notifications
        (filter (fun n => Notification.user_id n ≠ uid) (notifications s4))
        s4 in
      (* savings_goals, cascade *)
      let s6 := set_savings_goals
        (filter (fun kv => SavingsGoal.user_id (snd kv) ≠ uid)
                (savings_goals s5)) s5 in
      (* contacts_owned, cascade *)
      let s7 := set_contacts
        (filter (fun kv => Contact.user_id (snd kv) ≠ uid) (contacts s6))
        s6 in
      (* scheduled_payments, cascade *)
      let s8 := set_scheduled_payments
        (filter (fun kv => ScheduledPayment.sender_id (snd kv) ≠ uid)
                (scheduled_payments s7)) s7 in
      (set_users (delete uid (users s8)) s8, Success)
  end.

(** ** Requests and runs *)

Inductive Op :=
| Login (email account_number : string) (today : Z)
| Deposit (uid : nat) (amount : Q)
| Withdraw (uid : nat) (amount : Q)
| Transfer (uid : nat) (identifier : string) (amount : Q) (category : string)
| SavingsCreate (uid : nat) (name : string) (target : Q)
| SavingsDeposit (uid goal_id : nat) (amount : Q)
| SavingsWithdraw (uid goal_id : nat) (amount : Q)
| DeleteSavingsGoal (uid goal_id : nat)
| ContactAdd (uid : nat) (identifier nickname : string)
| ContactDelete (uid cid : nat)
| IssueScheduledPayment (uid : nat) (identifier : string) (amount : Q)
                        (frequency next_date : string)
| CancelScheduledPayment (uid sid : nat)
| CreateSplitBill (uid : nat) (title : string) (total : Q)
                  (members_raw : list (string * Q))
| SettleSplitShare (uid bill_id : nat)
| DeleteAccount (uid : nat).

Definition handle (op : Op) (s : State) : State * Response :=
  match op with
  | Login e a d => oauth2_callback e a d s
  | Deposit u a => api_deposit u a s
  | Withdraw u a => api_withdraw u a s
  | Transfer u i a c => api_transfer u i a c s
  | SavingsCreate u n t => api_savings_create u n t s
  | SavingsDeposit u g a => api_savings_deposit u g a s
  | SavingsWithdraw u g a => api_savings_withdraw u g a s
  | DeleteSavingsGoal u g => api_savings_delete u g s
  | ContactAdd u i n => api_contact_add u i n s
  | ContactDelete u c => api_contact_delete u c s
  | IssueScheduledPayment u i a f d => api_sched_create u i a f d s
  | CancelScheduledPayment u i => api_sched_delete u i s
  | CreateSplitBill u t a ms => api_split_create u t a ms s
  | SettleSplitShare u b => api_split_pay u b s
  | DeleteAccount u => api_delete_account u s
  end.

(** The database after a sequence of requests, served one after another. *)
Definition run (ops : list Op) (s : State) : State :=
  fold_left (fun acc op => fst (handle op acc)) ops s.

(** * Vocabulary of the properties *)

(** ** Experience points and tier *)

(** The break-point table, read top-down. *)
Definition tier_of_xp (x : Z) : string :=
  if decide (5000 <= x)%Z then "diamond"
  else if decide (2000 <= x)%Z then "platinum"
  else if decide (800 <= x)%Z then "gold"
  else if decide (200 <= x)%Z then "silver"
  else "bronze".

(** What one request may do to the pair (xp, tier) of an account: leave it
    alone, or raise xp and recompute the tier from the table. *)
Definition xp_step (u u' : User.t) : Prop :=
  (User.xp u' = User.xp u /\ User.tier u' = User.tier u)
  \/ ((User.xp u < User.xp u')%Z /\ User.tier u' = tier_of_xp (User.xp u')).

(** Every account of [s] is still there in [s'], moved by [xp_step]. *)
Definition xp_ext (s s' : State) : Prop :=
  forall uid u, users s !! uid = Some u ->
    exists u', users s' !! uid = Some u' /\ xp_step u u'.

(** ** Requests that move money, and [total_txn_count] *)

(** The stored [total_txn_count] of an account, if the account exists. *)
Definition txn_count (uid : nat) (s : State) : option Z :=
  User.total_txn_count <$> users s !! uid.

(** The requests that move money, transfers apart. *)
Definition moves_money_without_transfer (op : Op) : Prop :=
  match op with
  | Deposit _ _ | Withdraw _ _ | SavingsDeposit _ _ _ | SavingsWithdraw _ _ _
  | DeleteSavingsGoal _ _ | SettleSplitShare _ _ => True
  | _ => False
  end.

(** The requests that move money. *)
Definition moves_money (op : Op) : Prop :=
  match op with
  | Transfer _ _ _ _ => True
  | _ => moves_money_without_transfer op
  end.

(** ** Savings milestones *)

(** The 'Goal Achieved!' notification of an account. *)
Definition achieved (uid : nat) : Notification.t :=
  Notification.mk uid GoalAchieved "success".

(** ** Split-bill rows *)

(** The row a member of the request gets, if its identifier resolves. *)
Definition member_row (bill_id : nat) (s : State) (m : string * Q)
  : option SplitBillMember.t :=
  (fun u => SplitBillMember.mk bill_id u (snd m) false) <$> find_user (fst m) s.

(** ** Running totals and the ledger *)

(** The sum of [amount] over a list of ledger entries. *)
Definition sum_amounts (l : list Transaction.t) : Q :=
  foldr (fun x acc => Transaction.amount x + acc) 0 l.

(** The entries of an account as sender, and as receiver. *)
Definition sent_by (uid : nat) (x : Transaction.t) : Prop :=
  Transaction.sender_id x = Some uid.

Definition received_by (uid : nat) (x : Transaction.t) : Prop :=
  Transaction.receiver_id x = Some uid.

(** The entries the running totals follow: withdrawals and transfers on
    the sending side, deposits and transfers on the receiving side (the
    types the spending and income queries of the dashboard select). *)
Definition counts_as_sent (uid : nat) (x : Transaction.t) : Prop :=
  sent_by uid x
  /\ (Transaction.type x = "withdrawal" \/ Transaction.type x = "transfer").

Definition counts_as_received (uid : nat) (x : Transaction.t) : Prop :=
  received_by uid x
  /\ (Transaction.type x = "deposit" \/ Transaction.type x = "transfer").

#[global] Instance sent_by_dec uid x : Decision (sent_by uid x).
Proof. unfold sent_by. apply _. Defined.

#[global] Instance received_by_dec uid x : Decision (received_by uid x).
Proof. unfold received_by. apply _. Defined.

#[global] Instance counts_as_sent_dec uid x : Decision (counts_as_sent uid x).
Proof. unfold counts_as_sent. apply _. Defined.

#[global] Instance counts_as_received_dec uid x :
  Decision (counts_as_received uid x).
Proof. unfold counts_as_received. apply _. Defined.

(** The reconciliation of the claim: totals against every entry. *)
Definition reconciles_with_all_entries (s : State) : Prop :=
  forall uid u, users s !! uid = Some u ->
    User.total_sent u == sum_amounts (filter (sent_by uid) (transactions s))
    /\ User.total_received u
       == sum_amounts (filter (received_by uid) (transactions s)).

(** The reconciliation the handlers maintain: totals against the entries
    that count. *)
Definition reconciled (s : State) : Prop :=
  forall uid u, users s !! uid = Some u ->
    User.total_sent u
    == sum_amounts (filter (counts_as_sent uid) (transactions s))
    /\ User.total_received u
       == sum_amounts (filter (counts_as_received uid) (transactions s)).

(** The stored pair ([total_sent], [total_received]) of an account. *)
Definition totals (uid : nat) (s : State) : option (Q * Q) :=
  (fun u => (User.total_sent u, User.total_received u)) <$> users s !! uid.

(** ** Balances that stay at or above zero *)





(** ** Savings *)


(** The account a request acts for. *)
Definition acting_user (op : Op) (s : State) : option nat :=
  match op with
  | Login email _ _ => find_user_by_email email s
  | Deposit uid _ | Withdraw uid _ | Transfer uid _ _ _
  | SavingsCreate uid _ _ | SavingsDeposit uid _ _ | SavingsWithdraw uid _ _
  | DeleteSavingsGoal uid _ | ContactAdd uid _ _ | ContactDelete uid _
  | IssueScheduledPayment uid _ _ _ _ | CancelScheduledPayment uid _
  | CreateSplitBill uid _ _ _ | SettleSplitShare uid _
  | DeleteAccount uid => Some uid
  end.

(** ** Progress of the other accounts *)

(** Two rows with the same xp, tier, streak and last login. *)
Definition same_progress (u u' : User.t) : Prop :=
  User.xp u' = User.xp u /\ User.tier u' = User.tier u
  /\ User.streak u' = User.streak u
  /\ User.last_login u' = User.last_login u.

(** Account [j], if it is in [s0], is in [s] with the same progress. *)
Definition progress_kept (j : nat) (s0 s : State) : Prop :=
  forall u, users s0 !! j = Some u ->
    exists u', users s !! j = Some u' /\ same_progress u u'.

(** ** Money in circulation *)

(** What an account holds: spendable balance and savings. *)
Definition holdings (u : User.t) : Q :=
  User.balance u + User.savings_balance u.

(** The holdings of all accounts, summed. *)
Definition circulation (s : State) : Q :=
  foldr (fun kv acc => holdings (snd kv) + acc) 0 (map_to_list (users s)).


(** ** Contacts *)

(** No account is its own contact, and no pair (owner, contact) has two
    rows. *)
Definition contacts_wellformed (s : State) : Prop :=
  (forall k c, contacts s !! k = Some c ->
     Contact.user_id c ≠ Contact.contact_id c)
  /\ (forall k k' c c',
        contacts s !! k = Some c -> contacts s !! k' = Some c' ->
        Contact.user_id c = Contact.user_id c' ->
        Contact.contact_id c = Contact.contact_id c' -> k = k').

(** ** Split-bill shares *)

(** The rows of an account in a bill that are still to be paid. *)
Definition unpaid_rows (bill_id uid : nat) (s : State)
  : list SplitBillMember.t :=
  filter (fun m => SplitBillMember.bill_id m = bill_id
                   /\ SplitBillMember.user_id m = uid
                   /\ SplitBillMember.paid m = false)
         (split_bill_members s).

(** ** Logins on consecutive days *)

(** Logins of one account on the [n] days after [day]. *)
Fixpoint daily_logins (uid : nat) (day : Z) (n : nat) (s : State) : State :=
  match n with
  | O => s
  | S k => daily_logins uid (day + 1) k (login_streak (day + 1) uid s)
  end.

(** * Sample databases *)

(** Two accounts as [oauth2_callback] creates them (balance 1000, xp 100
    from the welcome award), last seen on day 10. *)
Definition alice : User.t :=
  User.mk "alice@example.com" "LG00000001AAAA" 1000 0 "bronze" 100 0
          (Some 10%Z) 0 0 0.

Definition bob : User.t :=
  User.mk "bob@example.com" "LG00000002BBBB" 1000 0 "bronze" 100 0
          (Some 10%Z) 0 0 0.

Definition two_accounts : State :=
  mkState (<[2%nat := bob]> (<[1%nat := alice]> ∅)) [] [] ∅ ∅ ∅ ∅ [].

(** Account 1 holds 2000.00 and account 2 holds 500.00. *)
Definition rich_alice_poor_bob : State :=
  mkState (<[2%nat := User.set_balance 500 bob]>
             (<[1%nat := User.set_balance 2000 alice]> ∅))
          [] [] ∅ ∅ ∅ ∅ [].

(** Account 1 holds 500.00 and has put 900.00 towards a goal of 1000.00. *)
Definition saver : State :=
  mkState (<[1%nat := User.set_savings_balance 900 (User.set_balance 500 alice)]>
             ∅)
          [] [] (<[1%nat := SavingsGoal.mk 1 "car" 1000 900]> ∅) ∅ ∅ ∅ [].

(** Two accounts after account 2 has paid account 1, saved it as a
    contact and scheduled a payment to it, and account 1 has split a bill
    with account 2. *)
Definition entangled : State :=
  run [Transfer 2 "alice@example.com" 50 "other";
       IssueScheduledPayment 2 "alice@example.com" 5 "monthly" "2030-01-01";
       CreateSplitBill 1 "dinner" 100 [("bob@example.com", 50)]]
      two_accounts.

(** Account 1 holds 1000.00 and has an empty savings goal. *)
Definition new_saver : State :=
  (api_savings_create 1 "car" 500 two_accounts).1.

(** * Properties *)

(** ** Reading the database after an update *)

Lemma users_update_user (uid j : nat) (f : User.t -> User.t) (s : State) :
  users (update_user uid f s) !! j
  = if decide (uid = j) then f <$> users s !! j else users s !! j.
Proof.
  unfold update_user; simpl. rewrite lookup_alter.
  destruct (decide (uid = j)) as [-> | ?]; reflexivity.
Qed.

Lemma users_update_user_eq (uid : nat) (f : User.t -> User.t) (s : State) :
  users (update_user uid f s) !! uid = f <$> users s !! uid.
Proof. rewrite users_update_user. destruct (decide (uid = uid)); congruence. Qed.

Lemma users_update_user_ne (uid j : nat) (f : User.t -> User.t) (s : State) :
  uid ≠ j -> users (update_user uid f s) !! j = users s !! j.
Proof.
  intros Hne. rewrite users_update_user.
  destruct (decide (uid = j)); congruence.
Qed.

(** A key handed out by [next_id] is not in use. *)
Lemma next_id_fresh {V : Type} (m : gmap nat V) : m !! next_id m = None.
Proof.
  destruct (m !! next_id m) as [v |] eqn:Hv; [| reflexivity].
  exfalso.
  assert (Hin : next_id m ∈ map fst (map_to_list m)).
  { apply list_elem_of_fmap. exists (next_id m, v). split; [reflexivity |].
    apply elem_of_map_to_list. exact Hv. }
  apply max_list_elem_of_le in Hin. unfold next_id in Hin at 1. lia.
Qed.

(** The row a lookup by identifier returns is a row of the table. *)
Lemma find_user_Some (identifier : string) (s : State) (rid : nat) :
  find_user identifier s = Some rid ->
  exists r, users s !! rid = Some r
            /\ (User.email r = identifier
                \/ User.account_number r = identifier).
Proof.
  unfold find_user. intros H.
  destruct (List.find _ _) as [[k v] |] eqn:Hf; [| discriminate].
  simpl in H. injection H as <-.
  apply find_some in Hf as [Hin Hp]. simpl in Hp.
  exists v. split.
  - apply elem_of_map_to_list. apply list_elem_of_In. exact Hin.
  - apply orb_true_iff in Hp as [Hp | Hp]; apply bool_decide_eq_true in Hp;
      [left | right]; exact Hp.
Qed.

Lemma find_user_by_email_Some (email : string) (s : State) (uid : nat) :
  find_user_by_email email s = Some uid ->
  exists r, users s !! uid = Some r /\ User.email r = email.
Proof.
  unfold find_user_by_email. intros H.
  destruct (List.find _ _) as [[k v] |] eqn:Hf; [| discriminate].
  simpl in H. injection H as <-.
  apply find_some in Hf as [Hin Hp]. simpl in Hp.
  exists v. split.
  - apply elem_of_map_to_list. apply list_elem_of_In. exact Hin.
  - apply bool_decide_eq_true in Hp. exact Hp.
Qed.

(** ** Experience points and tier *)

Lemma first_tier_table (x : Z) :
  User.first_tier x User.tiers "bronze" = tier_of_xp x.
Proof.
  unfold tier_of_xp, User.tiers; simpl.
  repeat (case_decide; [rewrite (proj2 (Z.leb_le _ _)) by assumption; reflexivity
                       | rewrite (proj2 (Z.leb_gt _ _)) by lia ]).
  reflexivity.
Qed.

Lemma award_xp_xp (points : Z) (u : User.t) :
  User.xp (User.award_xp points u) = (User.xp u + points)%Z.
Proof. reflexivity. Qed.

Lemma award_xp_tier (points : Z) (u : User.t) :
  User.tier (User.award_xp points u) = tier_of_xp (User.xp u + points).
Proof. unfold User.award_xp; simpl. apply first_tier_table. Qed.

Lemma xp_step_refl (u : User.t) : xp_step u u.
Proof. left. split; reflexivity. Qed.

Lemma xp_step_trans (u v w : User.t) :
  xp_step u v -> xp_step v w -> xp_step u w.
Proof.
  intros [[Hx Ht] | [Hx Ht]] [[Hx' Ht'] | [Hx' Ht']].
  - left. split; congruence.
  - right. split; [lia | exact Ht'].
  - right. split; [lia | congruence].
  - right. split; [lia | exact Ht'].
Qed.

Lemma xp_step_award (points : Z) (u : User.t) :
  (0 < points)%Z -> xp_step u (User.award_xp points u).
Proof.
  intros Hp. right. rewrite award_xp_tier, award_xp_xp. split; [lia | reflexivity].
Qed.

Lemma xp_ext_refl (s : State) : xp_ext s s.
Proof. intros uid u Hu. exists u. split; [exact Hu | apply xp_step_refl]. Qed.

Lemma xp_ext_trans (s1 s2 s3 : State) :
  xp_ext s1 s2 -> xp_ext s2 s3 -> xp_ext s1 s3.
Proof.
  intros H12 H23 uid u Hu.
  destruct (H12 uid u Hu) as (v & Hv & Huv).
  destruct (H23 uid v Hv) as (w & Hw & Hvw).
  exists w. split; [exact Hw | eapply xp_step_trans; eassumption].
Qed.

Lemma xp_ext_same_users (s0 s s' : State) :
  users s' = users s -> xp_ext s0 s -> xp_ext s0 s'.
Proof. intros Heq H uid u Hu. rewrite Heq. apply H. exact Hu. Qed.

Lemma xp_ext_update_user (s0 s : State) (uid : nat) (f : User.t -> User.t) :
  (forall u, xp_step u (f u)) -> xp_ext s0 s -> xp_ext s0 (update_user uid f s).
Proof.
  intros Hf H j u Hu. destruct (H j u Hu) as (v & Hv & Huv).
  rewrite users_update_user. destruct (decide (uid = j)) as [-> | Hne].
  - exists (f v). rewrite Hv. split; [reflexivity |].
    eapply xp_step_trans; [exact Huv | apply Hf].
  - exists v. split; assumption.
Qed.

Lemma xp_ext_insert_fresh (s0 s : State) (uid : nat) (u : User.t) :
  users s !! uid = None -> xp_ext s0 s ->
  xp_ext s0 (set_users (<[uid := u]> (users s)) s).
Proof.
  intros Hfresh H j v Hv. destruct (H j v Hv) as (w & Hw & Hvw).
  exists w. split; [| exact Hvw]. simpl.
  rewrite lookup_insert_ne; [exact Hw | congruence].
Qed.

Lemma xp_ext_add_transaction (s0 s : State) (x : Transaction.t) :
  xp_ext s0 s -> xp_ext s0 (add_transaction x s).
Proof. apply xp_ext_same_users. reflexivity. Qed.

Lemma xp_ext_add_notification (s0 s : State) (uid : nat) (t : Title)
    (k : string) :
  xp_ext s0 s -> xp_ext s0 (add_notification uid t k s).
Proof. apply xp_ext_same_users. reflexivity. Qed.

Lemma xp_ext_set_savings_goals (s0 s : State) (v : gmap nat SavingsGoal.t) :
  xp_ext s0 s -> xp_ext s0 (set_savings_goals v s).
Proof. apply xp_ext_same_users. reflexivity. Qed.

Lemma xp_ext_set_contacts (s0 s : State) (v : gmap nat Contact.t) :
  xp_ext s0 s -> xp_ext s0 (set_contacts v s).
Proof. apply xp_ext_same_users. reflexivity. Qed.

Lemma xp_ext_set_scheduled_payments (s0 s : State)
    (v : gmap nat ScheduledPayment.t) :
  xp_ext s0 s -> xp_ext s0 (set_scheduled_payments v s).
Proof. apply xp_ext_same_users. reflexivity. Qed.

Lemma xp_ext_set_split_bills (s0 s : State) (v : gmap nat SplitBill.t) :
  xp_ext s0 s -> xp_ext s0 (set_split_bills v s).
Proof. apply xp_ext_same_users. reflexivity. Qed.

Lemma xp_ext_set_split_bill_members (s0 s : State)
    (v : list SplitBillMember.t) :
  xp_ext s0 s -> xp_ext s0 (set_split_bill_members v s).
Proof. apply xp_ext_same_users. reflexivity. Qed.

Lemma xp_ext_split_add_member (s0 s : State) (bill_id : nat) (m : string * Q) :
  xp_ext s0 s -> xp_ext s0 (split_add_member bill_id m s).
Proof.
  intros H. unfold split_add_member. destruct (find_user m.1 s); [| exact H].
  apply xp_ext_add_notification, xp_ext_set_split_bill_members, H.
Qed.

Lemma xp_ext_split_members (ms : list (string * Q)) (s0 s : State)
    (bill_id : nat) :
  xp_ext s0 s ->
  xp_ext s0 (fold_left (fun acc m => split_add_member bill_id m acc) ms s).
Proof.
  revert s. induction ms as [| m ms IH]; intros s H; simpl; [exact H |].
  apply IH, xp_ext_split_add_member, H.
Qed.

(** The attribute writes of the handlers leave xp and tier alone unless
    they go through [award_xp]. *)
Ltac xp_field := intros ?; first
  [ apply xp_step_award; lia
  | left; split; reflexivity ].

Ltac xp_chain :=
  repeat first
    [ apply xp_ext_refl
    | apply xp_ext_update_user; [xp_field |]
    | apply xp_ext_add_transaction
    | apply xp_ext_add_notification
    | apply xp_ext_set_savings_goals
    | apply xp_ext_set_contacts
    | apply xp_ext_set_scheduled_payments
    | apply xp_ext_set_split_bills
    | apply xp_ext_set_split_bill_members
    | apply xp_ext_split_members
    | apply xp_ext_insert_fresh; [apply next_id_fresh |] ].

Ltac open_handler :=
  repeat match goal with
    | |- context [match ?x with _ => _ end] =>
        lazymatch x with
        | decide _ => destruct x
        | _ => destruct x eqn:?
        end; simpl
    end.

Lemma login_streak_xp_ext (today : Z) (uid : nat) (s : State) :
  xp_ext s (login_streak today uid s).
Proof.
  unfold login_streak. destruct (users s !! uid); [| apply xp_ext_refl].
  repeat case_decide; xp_chain.
Qed.

Lemma oauth2_callback_xp_ext (e a : string) (today : Z) (s : State) :
  xp_ext s (oauth2_callback e a today s).1.
Proof.
  unfold oauth2_callback. destruct (find_user_by_email e s); simpl.
  - apply login_streak_xp_ext.
  - xp_chain.
Qed.

(** Every request but the deletion of an account keeps every account and
    moves its xp and tier by [xp_step]. *)
Lemma handle_xp_ext (op : Op) (s : State) :
  (forall uid, op ≠ DeleteAccount uid) -> xp_ext s (handle op s).1.
Proof.
  intros Hop. destruct op; simpl;
    try (apply oauth2_callback_xp_ext);
    try (exfalso; eapply Hop; reflexivity);
    match goal with
    | |- xp_ext _ (?h _).1 => unfold h
    | |- xp_ext _ (?h _ _).1 => unfold h
    | |- xp_ext _ (?h _ _ _).1 => unfold h
    | |- xp_ext _ (?h _ _ _ _).1 => unfold h
    | |- xp_ext _ (?h _ _ _ _ _).1 => unfold h
    | |- xp_ext _ (?h _ _ _ _ _ _).1 => unfold h
    end;
    open_handler; xp_chain.
Qed.

(** Deleting an account removes that account only. *)
Lemma delete_account_xp_ext (uid j : nat) (u : User.t) (s : State) :
  j ≠ uid -> users s !! j = Some u ->
  users (api_delete_account uid s).1 !! j = Some u.
Proof.
  intros Hne Hu. unfold api_delete_account.
  destruct (users s !! uid); simpl; [| exact Hu].
  rewrite lookup_delete_ne by congruence. exact Hu.
Qed.

Lemma handle_xp_step (op : Op) (s : State) (uid : nat) (u : User.t) :
  users s !! uid = Some u -> op ≠ DeleteAccount uid ->
  exists u', users (handle op s).1 !! uid = Some u' /\ xp_step u u'.
Proof.
  intros Hu Hop.
  assert (Hcases : (exists j, op = DeleteAccount j)
                   \/ (forall j, op ≠ DeleteAccount j)).
  { destruct op; try (right; intros j; discriminate). left. eauto. }
  destruct Hcases as [[j ->] | Hnd].
  - exists u. split; [| apply xp_step_refl].
    apply delete_account_xp_ext; [congruence | exact Hu].
  - apply handle_xp_ext; [exact Hnd | exact Hu].
Qed.

Lemma run_cons (op : Op) (ops : list Op) (s : State) :
  run (op :: ops) s = run ops (handle op s).1.
Proof. reflexivity. Qed.

Lemma run_xp_step (ops : list Op) (s : State) (uid : nat) (u : User.t) :
  users s !! uid = Some u -> DeleteAccount uid ∉ ops ->
  exists u', users (run ops s) !! uid = Some u' /\ xp_step u u'.
Proof.
  revert s u. induction ops as [| op ops IH]; intros s u Hu Halive.
  - exists u. split; [exact Hu | apply xp_step_refl].
  - rewrite run_cons.
    destruct (handle_xp_step op s uid u Hu) as (v & Hv & Huv).
    { intros ->. apply Halive. left. }
    destruct (IH _ v Hv) as (w & Hw & Hvw).
    { intros Hin. apply Halive. right. exact Hin. }
    exists w. split; [exact Hw | eapply xp_step_trans; eassumption].
Qed.

(** C8. Along any sequence of requests that does not delete the account,
    the account's xp never decreases, and whenever its xp differs from the
    xp at the start its stored tier is the value of the break-point table
    at its xp; [award_xp] always stores the table's value; the table gives
    bronze at 199, silver at 200 and 799, gold at 800 (and 1999), platinum
    at 2000 (and 4999), diamond at 5000. *)
Theorem xp_monotone_tier_from_table (ops : list Op) (s : State) (uid : nat)
    (u : User.t)
    (Hu : users s !! uid = Some u)
    (Halive : DeleteAccount uid ∉ ops) :
  (exists u', users (run ops s) !! uid = Some u'
     /\ (User.xp u <= User.xp u')%Z
     /\ (User.xp u' ≠ User.xp u -> User.tier u' = tier_of_xp (User.xp u')))
  /\ (forall points v,
        User.tier (User.award_xp points v)
        = tier_of_xp (User.xp (User.award_xp points v)))
  /\ tier_of_xp 199 = "bronze" /\ tier_of_xp 200 = "silver"
  /\ tier_of_xp 799 = "silver" /\ tier_of_xp 800 = "gold"
  /\ tier_of_xp 1999 = "gold" /\ tier_of_xp 2000 = "platinum"
  /\ tier_of_xp 4999 = "platinum" /\ tier_of_xp 5000 = "diamond".
Proof.
  split; [| split; [| repeat split]].
  - destruct (run_xp_step ops s uid u Hu Halive) as (u' & Hu' & Hstep).
    exists u'. split; [exact Hu' |].
    destruct Hstep as [[Hx Ht] | [Hx Ht]].
    + split; [lia | intros Hne; contradiction].
    + split; [lia | intros _; exact Ht].
  - intros points v. rewrite award_xp_tier, award_xp_xp. reflexivity.
Qed.

Lemma xp_monotone_tier_from_table_witness :
  let ops := [Deposit 1 50; Transfer 1 "bob@example.com" 100 "other";
              Login "alice@example.com" "" 11] in
  (exists u', users (run ops two_accounts) !! 1%nat = Some u'
     /\ (User.xp alice <= User.xp u')%Z
     /\ (User.xp u' ≠ User.xp alice
         -> User.tier u' = tier_of_xp (User.xp u')))
  /\ (forall points v,
        User.tier (User.award_xp points v)
        = tier_of_xp (User.xp (User.award_xp points v)))
  /\ tier_of_xp 199 = "bronze" /\ tier_of_xp 200 = "silver"
  /\ tier_of_xp 799 = "silver" /\ tier_of_xp 800 = "gold"
  /\ tier_of_xp 1999 = "gold" /\ tier_of_xp 2000 = "platinum"
  /\ tier_of_xp 4999 = "platinum" /\ tier_of_xp 5000 = "diamond".
Proof.
  apply (xp_monotone_tier_from_table _ two_accounts 1 alice).
  - reflexivity.
  - intros Hin.
    repeat (apply elem_of_cons in Hin as [Hin | Hin]; [discriminate Hin |]).
    apply elem_of_nil in Hin. exact Hin.
Defined.

(** ** Rounding *)

Lemma round_half_even_close (q : Q) :
  Qabs (inject_Z (round_half_even q) - q) <= 1 # 2.
Proof.
  unfold round_half_even.
  pose proof (Qfloor_le q) as Hlo. pose proof (Qlt_floor q) as Hhi.
  rewrite inject_Z_plus in Hhi. change (inject_Z 1) with 1 in Hhi.
  apply Qabs_Qle_condition.
  destruct (Qcompare (q - inject_Z (Qfloor q)) (1 # 2)) eqn:Hc.
  - apply Qeq_alt in Hc.
    destruct (Z.even (Qfloor q)).
    + split; lra.
    + rewrite inject_Z_plus. change (inject_Z 1) with 1. split; lra.
  - apply Qlt_alt in Hc. split; lra.
  - apply Qgt_alt in Hc. rewrite inject_Z_plus. change (inject_Z 1) with 1.
    split; lra.
Qed.


(** ** Transfer *)

Ltac read_users :=
  simpl;
  repeat first
    [ rewrite lookup_alter_eq
    | rewrite lookup_alter_ne by congruence
    | rewrite lookup_insert_ne by congruence
    | rewrite lookup_delete_ne by congruence ].



(** The figures of that transfer. *)
Example transfer_1200_figures :
  let r := api_transfer 1 "bob@example.com" 1200 "other" rich_alice_poor_bob in
  r.2 = Success
  /\ transfer_fee 1200 == 12 # 10
  /\ match users r.1 !! 1%nat with
     | Some u => User.balance u == 7988 # 10
     | None => False
     end
  /\ match users r.1 !! 2%nat with
     | Some u => User.balance u == 1700
     | None => False
     end
  /\ length (transactions r.1) = 1%nat.
Proof. vm_compute. repeat split; reflexivity. Qed.

(** C7 as stated fails: 1500 is under the single-transfer limit of
    50000, and the request is turned away for lack of funds. *)
Lemma transfer_1500_not_limit_exceeded :
  User.balance alice = 1000
  /\ find_user "bob@example.com" two_accounts = Some 2%nat
  /\ (api_transfer 1 "bob@example.com" 1500 "other" two_accounts).2
     = Failure InsufficientFunds
  /\ (api_transfer 1 "bob@example.com" 1500 "other" two_accounts).2
     ≠ Failure LimitExceeded.
Proof. vm_compute. repeat split; try reflexivity. discriminate. Qed.

(** C7, amended. An account holding 1000.00 that sends 1500 to another
    account that exists is turned away with the insufficient-balance
    error (the fee of 1.50 brings the sum needed to 1501.50), and the
    database, the sender's balance included, stays as it was. *)
Theorem transfer_1500_insufficient (s : State) (uid rid : nat) (u : User.t)
    (identifier category : string)
    (Hu : users s !! uid = Some u)
    (Hbal : User.balance u == 1000)
    (Hid : identifier ≠ "")
    (Hr : find_user identifier s = Some rid)
    (Hne : rid ≠ uid) :
  api_transfer uid identifier 1500 category s = (s, Failure InsufficientFunds)
  /\ transfer_fee 1500 == 15 # 10.
Proof.
  split; [| reflexivity].
  unfold api_transfer. rewrite Hu.
  destruct (decide (1500 <= 0)) as [Hbad | _]; [exfalso; revert Hbad; lra |].
  destruct (decide (50000 < 1500)) as [Hbad | _]; [exfalso; revert Hbad; lra |].
  destruct (decide (identifier = "")); [contradiction |].
  rewrite Hr. destruct (decide (rid = uid)); [contradiction |].
  assert (Hfee : transfer_fee 1500 == 15 # 10) by reflexivity.
  destruct (decide (User.balance u < 1500 + transfer_fee 1500)) as [_ | Hge];
    [reflexivity |].
  exfalso. apply Hge. rewrite Hfee, Hbal. reflexivity.
Qed.

Lemma transfer_1500_insufficient_witness :
  api_transfer 1 "bob@example.com" 1500 "other" two_accounts
  = (two_accounts, Failure InsufficientFunds)
  /\ transfer_fee 1500 == 15 # 10.
Proof.
  apply (transfer_1500_insufficient two_accounts 1 2 alice).
  - reflexivity.
  - reflexivity.
  - discriminate.
  - vm_compute. reflexivity.
  - discriminate.
Defined.

(** ** Login streak *)

(** C6 as stated fails on its last clause: a login dated before the stored
    date is accepted, and stored. *)
Lemma login_out_of_order_is_applied :
  User.last_login alice = Some 10%Z
  /\ (5 < 10)%Z
  /\ (oauth2_callback "alice@example.com" "" 5 two_accounts).2 = Success
  /\ users (oauth2_callback "alice@example.com" "" 5 two_accounts).1 !! 1%nat
     = Some (User.set_last_login (Some 5%Z) (User.set_streak 1 alice))
  /\ (oauth2_callback "alice@example.com" "" 5 two_accounts).1 ≠ two_accounts.
Proof.
  split; [reflexivity |]. split; [reflexivity |]. split; [reflexivity |].
  split; [vm_compute; reflexivity |].
  intros Heq. apply (f_equal (fun s => User.last_login <$> users s !! 1%nat)) in Heq.
  vm_compute in Heq. discriminate Heq.
Qed.

(** C6, amended. For an account that exists, a login dated [today]:
    stores [today] as the last date in every case; after a login dated the
    day before it adds 1 to the streak and awards 10 xp, plus 50 xp and a
    streak notification when the new streak is a multiple of 7; on the
    stored date itself it leaves streak, xp and notifications alone; in
    every other case (a gap of two days or more, no stored date, or a
    stored date after [today]) it sets the streak to 1 and leaves xp and
    notifications alone.  No date is turned away: the callback answers
    with success, also when [today] is before the stored date. *)
Theorem login_streak_transition (today : Z) (uid : nat) (s : State)
    (u : User.t) (Hu : users s !! uid = Some u) :
  let s' := login_streak today uid s in
  exists u',
    users s' !! uid = Some u'
    /\ User.last_login u' = Some today
    /\ (User.last_login u = Some (today - 1)%Z ->
        User.streak u' = (User.streak u + 1)%Z
        /\ if decide (((User.streak u + 1) mod 7)%Z = 0%Z) then
             User.xp u' = (User.xp u + 10 + 50)%Z
             /\ notifications s'
                = notifications s
                  ++ [Notification.mk uid (DayStreak (User.streak u + 1))
                                      "success"]
           else
             User.xp u' = (User.xp u + 10)%Z
             /\ notifications s' = notifications s)
    /\ (User.last_login u = Some today ->
        User.streak u' = User.streak u /\ User.xp u' = User.xp u
        /\ notifications s' = notifications s)
    /\ (User.last_login u ≠ Some (today - 1)%Z ->
        User.last_login u ≠ Some today ->
        User.streak u' = 1%Z /\ User.xp u' = User.xp u
        /\ notifications s' = notifications s)
    /\ (forall d, User.last_login u = Some d -> (today < d)%Z ->
        User.streak u' = 1%Z)
    /\ (forall email account_number,
          (oauth2_callback email account_number today s).2 = Success).
Proof.
  simpl. unfold login_streak. rewrite Hu.
  assert (Hok : forall email account_number,
             (oauth2_callback email account_number today s).2 = Success).
  { intros e a. unfold oauth2_callback.
    destruct (find_user_by_email e s); reflexivity. }
  destruct (decide (User.last_login u = Some (today - 1)%Z)) as [Hy | Hy].
  - destruct (decide (((User.streak u + 1) mod 7)%Z = 0%Z)) as [Hm | Hm];
      eexists; (split; [read_users; rewrite Hu; reflexivity |]);
      (split; [reflexivity |]); simpl.
    + split; [intros _; split; [reflexivity | split; reflexivity] |].
      split; [intros Ht; rewrite Hy in Ht; injection Ht; lia |].
      split; [intros Hc; contradiction |].
      split; [| exact Hok].
      intros d Hd Hlt. rewrite Hy in Hd. injection Hd. lia.
    + split; [intros _; split; [reflexivity | split; reflexivity] |].
      split; [intros Ht; rewrite Hy in Ht; injection Ht; lia |].
      split; [intros Hc; contradiction |].
      split; [| exact Hok].
      intros d Hd Hlt. rewrite Hy in Hd. injection Hd. lia.
  - destruct (decide (User.last_login u ≠ Some today)) as [Ht | Ht];
      eexists; (split; [read_users; rewrite Hu; reflexivity |]);
      (split; [reflexivity |]); simpl.
    + split; [intros Hc; contradiction |].
      split; [intros Hc; contradiction |].
      split; [intros _ _; repeat split |].
      split; [| exact Hok].
      intros d Hd Hlt. reflexivity.
    + assert (Ht' : User.last_login u = Some today).
      { destruct (decide (User.last_login u = Some today)); [assumption |].
        contradiction. }
      split; [intros Hc; contradiction |].
      split; [intros _; repeat split |].
      split; [intros _ Hc; contradiction |].
      split; [| exact Hok].
      intros d Hd Hlt. rewrite Ht' in Hd. injection Hd. lia.
Qed.

Lemma login_streak_transition_witness :
  let s' := login_streak 11 1 two_accounts in
  exists u',
    users s' !! 1%nat = Some u'
    /\ User.last_login u' = Some 11%Z
    /\ (User.last_login alice = Some (11 - 1)%Z ->
        User.streak u' = (User.streak alice + 1)%Z
        /\ if decide (((User.streak alice + 1) mod 7)%Z = 0%Z) then
             User.xp u' = (User.xp alice + 10 + 50)%Z
             /\ notifications s'
                = notifications two_accounts
                  ++ [Notification.mk 1 (DayStreak (User.streak alice + 1))
                                      "success"]
           else
             User.xp u' = (User.xp alice + 10)%Z
             /\ notifications s' = notifications two_accounts)
    /\ (User.last_login alice = Some 11%Z ->
        User.streak u' = User.streak alice /\ User.xp u' = User.xp alice
        /\ notifications s' = notifications two_accounts)
    /\ (User.last_login alice ≠ Some (11 - 1)%Z ->
        User.last_login alice ≠ Some 11%Z ->
        User.streak u' = 1%Z /\ User.xp u' = User.xp alice
        /\ notifications s' = notifications two_accounts)
    /\ (forall d, User.last_login alice = Some d -> (11 < d)%Z ->
        User.streak u' = 1%Z)
    /\ (forall email account_number,
          (oauth2_callback email account_number 11 two_accounts).2 = Success).
Proof.
  apply (login_streak_transition 11 1 two_accounts alice).
  reflexivity.
Defined.

(** ** [total_txn_count] *)








(** The counts in that database after one transfer and one deposit. *)
Example txn_count_after_transfer_and_deposit :
  let s := run [Transfer 1 "bob@example.com" 100 "other"; Deposit 1 50;
                Withdraw 2 10] two_accounts in
  txn_count 1 s = Some 1%Z /\ txn_count 2 s = Some 1%Z
  /\ length (transactions s) = 3%nat.
Proof. vm_compute. repeat split; reflexivity. Qed.

(** ** Savings goals *)

(** C4 as stated fails: the deposit of 100 brings the goal to its target
    and emits the milestone; the next deposit of 50, on the goal that has
    already met its target, emits it again and awards the 100 xp again. *)
Lemma milestone_emitted_again :
  let s1 := (api_savings_deposit 1 1 100 saver).1 in
  let s2 := (api_savings_deposit 1 1 50 s1).1 in
  (api_savings_deposit 1 1 100 saver).2 = Success
  /\ (api_savings_deposit 1 1 50 s1).2 = Success
  /\ notifications s1 = [achieved 1]
  /\ notifications s2 = [achieved 1; achieved 1]
  /\ User.xp <$> users s1 !! 1%nat = Some (100 + 10 + 100)%Z
  /\ User.xp <$> users s2 !! 1%nat = Some (100 + 10 + 100 + 10 + 100)%Z.
Proof. vm_compute. repeat split; reflexivity. Qed.

(** C4, amended. A savings deposit that succeeds adds the amount to the
    goal and awards 10 xp; it emits the milestone notification and awards
    100 xp more exactly when the goal's amount after the deposit is at
    least its target, whether or not the goal had met its target before;
    so every deposit on a goal that has already met its target emits the
    milestone again. *)
Theorem savings_deposit_milestone (s s' : State) (uid goal_id : nat)
    (amount : Q)
    (H : api_savings_deposit uid goal_id amount s = (s', Success)) :
  exists u g,
    users s !! uid = Some u /\ savings_goals s !! goal_id = Some g
    /\ SavingsGoal.user_id g = uid
    /\ SavingsGoal.current <$> savings_goals s' !! goal_id
       = Some (SavingsGoal.current g + amount)
    /\ (if decide (SavingsGoal.target g <= SavingsGoal.current g + amount)
        then notifications s' = notifications s ++ [achieved uid]
             /\ User.xp <$> users s' !! uid = Some (User.xp u + 10 + 100)%Z
        else notifications s' = notifications s
             /\ User.xp <$> users s' !! uid = Some (User.xp u + 10)%Z)
    /\ (SavingsGoal.target g <= SavingsGoal.current g ->
        notifications s' = notifications s ++ [achieved uid]).
Proof.
  unfold api_savings_deposit in H.
  destruct (users s !! uid) as [u |] eqn:Hu; [| discriminate].
  destruct (find_goal goal_id uid s) as [g |] eqn:Hg; [| discriminate].
  unfold find_goal in Hg.
  destruct (savings_goals s !! goal_id) as [g0 |] eqn:Hg0; [| discriminate].
  destruct (decide (SavingsGoal.user_id g0 = uid)) as [Hown |]; [| discriminate].
  injection Hg as ->.
  destruct (decide (amount <= 0 \/ User.balance u < amount)) as [| Hok];
    [discriminate |].
  assert (Hpos : 0 < amount).
  { apply Qnot_le_lt. intros Hle. apply Hok. left. exact Hle. }
  exists u, g. split; [reflexivity |]. split; [reflexivity |].
  split; [exact Hown |].
  destruct (decide (SavingsGoal.target g <= SavingsGoal.current g + amount))
    as [Hmet | Hnot]; injection H as <-.
  - split; [read_users; rewrite Hg0; reflexivity |].
    split; [split; [reflexivity | read_users; rewrite Hu; reflexivity] |].
    intros _. reflexivity.
  - split; [read_users; rewrite Hg0; reflexivity |].
    split; [split; [reflexivity | read_users; rewrite Hu; reflexivity] |].
    intros Hbefore. exfalso. apply Hnot. lra.
Qed.

Lemma savings_deposit_milestone_witness :
  let s1 := (api_savings_deposit 1 1 100 saver).1 in
  let s' := (api_savings_deposit 1 1 50 s1).1 in
  exists u g,
    users s1 !! 1%nat = Some u /\ savings_goals s1 !! 1%nat = Some g
    /\ SavingsGoal.user_id g = 1%nat
    /\ SavingsGoal.current <$> savings_goals s' !! 1%nat
       = Some (SavingsGoal.current g + 50)
    /\ (if decide (SavingsGoal.target g <= SavingsGoal.current g + 50)
        then notifications s' = notifications s1 ++ [achieved 1]
             /\ User.xp <$> users s' !! 1%nat = Some (User.xp u + 10 + 100)%Z
        else notifications s' = notifications s1
             /\ User.xp <$> users s' !! 1%nat = Some (User.xp u + 10)%Z)
    /\ (SavingsGoal.target g <= SavingsGoal.current g ->
        notifications s' = notifications s1 ++ [achieved 1]).
Proof.
  apply (savings_deposit_milestone
           (api_savings_deposit 1 1 100 saver).1 _ 1 1 50).
  vm_compute. reflexivity.
Defined.

(** ** Account deletion *)




(** ** Split bills *)

Lemma find_user_same_users (identifier : string) (s s' : State) :
  users s' = users s -> find_user identifier s' = find_user identifier s.
Proof. intros Heq. unfold find_user. rewrite Heq. reflexivity. Qed.

Lemma member_row_same_users (bill_id : nat) (s s' : State)
    (ms : list (string * Q)) :
  users s' = users s ->
  omap (member_row bill_id s') ms = omap (member_row bill_id s) ms.
Proof.
  intros Heq. apply list_omap_ext, Forall_Forall2_diag, Forall_forall.
  intros m _. unfold member_row.
  rewrite (find_user_same_users _ s s' Heq). reflexivity.
Qed.

Lemma split_members_fold (ms : list (string * Q)) (bill_id : nat)
    (acc : State) :
  let s' := fold_left (fun a m => split_add_member bill_id m a) ms acc in
  users s' = users acc
  /\ split_bills s' = split_bills acc
  /\ split_bill_members s'
     = split_bill_members acc ++ omap (member_row bill_id acc) ms.
Proof.
  revert acc. induction ms as [| m ms IH]; intros acc; simpl.
  - rewrite app_nil_r. repeat split.
  - destruct (IH (split_add_member bill_id m acc)) as (Hu & Hb & Hm).
    assert (Husers : users (split_add_member bill_id m acc) = users acc).
    { unfold split_add_member. destruct (find_user m.1 acc); reflexivity. }
    rewrite Hu, Hb, Hm. split; [exact Husers |].
    split; [unfold split_add_member; destruct (find_user m.1 acc); reflexivity |].
    rewrite (member_row_same_users _ acc _ ms Husers). unfold member_row at 2, split_add_member.
    destruct (find_user m.1 acc); simpl; [| reflexivity].
    rewrite <- app_assoc. reflexivity.
Qed.

(** What a split bill that is created adds to the membership table: the
    creator's row, owing 0 and paid, then one unpaid row per member whose
    identifier resolves, owing the amount the request names. *)
Lemma split_create_rows (s s' : State) (uid : nat) (title : string)
    (total : Q) (members_raw : list (string * Q)) :
  api_split_create uid title total members_raw s = (s', Success) ->
  let bill_id := next_id (split_bills s) in
  split_bills s' = <[bill_id := SplitBill.mk uid title total]> (split_bills s)
  /\ split_bill_members s'
     = split_bill_members s
       ++ SplitBillMember.mk bill_id uid 0 true
          :: omap (member_row bill_id s) members_raw.
Proof.
  unfold api_split_create. intros H.
  destruct (users s !! uid); [| discriminate].
  case_decide; [discriminate |]. injection H as <-. simpl.
  match goal with
  | |- context [fold_left ?f ?ms ?acc] =>
      destruct (split_members_fold ms (next_id (split_bills s)) acc)
        as (Hu & Hb & Hm)
  end.
  simpl in Hb, Hm. rewrite Hb, Hm. split; [reflexivity |].
  rewrite <- app_assoc. reflexivity.
Qed.

(** C9 at a member whose amount is negative: the bill is created and the
    member's row owes -5. *)
Lemma split_create_negative_amount_owed :
  let r := api_split_create 1 "dinner" 100 [("bob@example.com", -5)]
                            two_accounts in
  r.2 = Success
  /\ split_bill_members r.1
     = [SplitBillMember.mk 1 1 0 true; SplitBillMember.mk 1 2 (-5) false]
  /\ SplitBillMember.amount_owed (SplitBillMember.mk 1 2 (-5) false) < 0.
Proof. vm_compute. repeat split; reflexivity. Qed.

(** ** Balances below zero *)

(** C2 at a savings withdrawal of a negative amount: [g.current < amount]
    is false, the request succeeds and the balance is 1000 - 2000. *)
Lemma savings_withdraw_negative_amount :
  let r := api_savings_withdraw 1 1 (-2000) new_saver in
  savings_goals new_saver !! 1%nat = Some (SavingsGoal.mk 1 "car" 500 0)
  /\ User.balance <$> users new_saver !! 1%nat = Some 1000
  /\ r.2 = Success
  /\ match users r.1 !! 1%nat with
     | Some u => User.balance u == -1000 /\ User.balance u < 0
     | None => False
     end.
Proof. vm_compute. repeat split; reflexivity. Qed.

(** The same through a split share of a negative amount: settling it
    takes the amount from the creator of the bill. *)
Example split_pay_negative_share :
  let s := run [CreateSplitBill 1 "dinner" 100 [("bob@example.com", -5000)];
                SettleSplitShare 2 1] two_accounts in
  match users s !! 1%nat, users s !! 2%nat with
  | Some creator, Some payer =>
      User.balance creator == -4000 /\ User.balance payer == 6000
  | _, _ => False
  end.
Proof. vm_compute. repeat split; reflexivity. Qed.

(** ** Running totals and the ledger *)

Lemma sum_amounts_app (l1 l2 : list Transaction.t) :
  sum_amounts (l1 ++ l2) == sum_amounts l1 + sum_amounts l2.
Proof.
  induction l1 as [| x l1 IH]; simpl.
  - lra.
  - rewrite IH. lra.
Qed.

Lemma sum_filter_snoc (P : Transaction.t -> Prop)
    `{!forall x, Decision (P x)} (l : list Transaction.t) (x : Transaction.t) :
  sum_amounts (filter P (l ++ [x]))
  == sum_amounts (filter P l)
     + (if decide (P x) then Transaction.amount x else 0).
Proof.
  rewrite filter_app, sum_amounts_app.
  rewrite filter_cons, filter_nil.
  destruct (decide (P x)); simpl; lra.
Qed.

Lemma totals_update_user (uid j : nat) (f : User.t -> User.t) (s : State) :
  (forall u, User.total_sent (f u) = User.total_sent u
             /\ User.total_received (f u) = User.total_received u) ->
  totals j (update_user uid f s) = totals j s.
Proof.
  intros Hf. unfold totals. rewrite users_update_user.
  destruct (decide (uid = j)); [| reflexivity].
  destruct (users s !! j) as [u |]; simpl; [| reflexivity].
  destruct (Hf u) as [-> ->]. reflexivity.
Qed.

(** A request that leaves the totals alone and adds nothing that counts
    keeps the reconciliation. *)
Lemma reconciled_frame (s s' : State) :
  (forall j, totals j s' = totals j s) ->
  (forall j, sum_amounts (filter (counts_as_sent j) (transactions s'))
             == sum_amounts (filter (counts_as_sent j) (transactions s))) ->
  (forall j, sum_amounts (filter (counts_as_received j) (transactions s'))
             == sum_amounts (filter (counts_as_received j) (transactions s))) ->
  reconciled s -> reconciled s'.
Proof.
  intros Ht Hs Hr Hrec j u' Hu'.
  specialize (Ht j). unfold totals in Ht. rewrite Hu' in Ht. simpl in Ht.
  destruct (users s !! j) as [u |] eqn:Hu; [| discriminate].
  injection Ht as Hts Htr. destruct (Hrec j u Hu) as [H1 H2].
  rewrite Hts, Htr, Hs, Hr. split; assumption.
Qed.

(** A request that appends one entry and moves the totals of each account
    by what that entry counts for keeps the reconciliation. *)
Lemma reconciled_append (s s' : State) (x : Transaction.t) :
  transactions s' = transactions s ++ [x] ->
  (forall j u', users s' !! j = Some u' ->
     exists u, users s !! j = Some u
       /\ User.total_sent u'
          == User.total_sent u
             + (if decide (counts_as_sent j x) then Transaction.amount x else 0)
       /\ User.total_received u'
          == User.total_received u
             + (if decide (counts_as_received j x) then Transaction.amount x
                else 0)) ->
  reconciled s -> reconciled s'.
Proof.
  intros Htx Hus Hrec j u' Hu'.
  destruct (Hus j u' Hu') as (u & Hu & Hs & Hr).
  destruct (Hrec j u Hu) as [H1 H2].
  rewrite Htx, !sum_filter_snoc, Hs, Hr, H1, H2. split; reflexivity.
Qed.

(** Decide whether a given entry counts for an account. *)
Ltac count_entry :=
  repeat match goal with
    | |- context [decide (counts_as_sent ?j ?x)] =>
        destruct (decide (counts_as_sent j x)) as [[? [? | ?]] | ?]
    | |- context [decide (counts_as_received ?j ?x)] =>
        destruct (decide (counts_as_received j x)) as [[? [? | ?]] | ?]
    end;
  unfold counts_as_sent, counts_as_received, sent_by, received_by in *;
  cbn [Transaction.sender_id Transaction.receiver_id Transaction.type
       Transaction.amount] in *;
  try discriminate; try congruence;
  try (exfalso;
       match goal with
       | Hn : ¬ (_ /\ _) |- _ =>
           apply Hn; split;
           [reflexivity | first [left; reflexivity | right; reflexivity]]
       end).

Lemma api_deposit_reconciled (uid : nat) (amount : Q) (s : State) :
  reconciled s -> reconciled (api_deposit uid amount s).1.
Proof.
  intros Hrec. unfold api_deposit.
  destruct (users s !! uid) as [u |] eqn:Hu; [| exact Hrec].
  case_decide; [exact Hrec |]. simpl.
  eapply (reconciled_append s); [reflexivity | | exact Hrec].
  intros j u' Hu'. simpl in Hu'.
  destruct (decide (j = uid)) as [-> | Hne].
  - rewrite !lookup_alter_eq, Hu in Hu'. injection Hu' as <-.
    exists u. split; [exact Hu |]. simpl.
    split; count_entry; lra.
  - rewrite !lookup_alter_ne in Hu' by congruence.
    exists u'. split; [exact Hu' |].
    split; count_entry; lra.
Qed.

Lemma api_withdraw_reconciled (uid : nat) (amount : Q) (s : State) :
  reconciled s -> reconciled (api_withdraw uid amount s).1.
Proof.
  intros Hrec. unfold api_withdraw.
  destruct (users s !! uid) as [u |] eqn:Hu; [| exact Hrec].
  repeat (case_decide; [exact Hrec |]). simpl.
  eapply (reconciled_append s); [reflexivity | | exact Hrec].
  intros j u' Hu'. simpl in Hu'.
  destruct (decide (j = uid)) as [-> | Hne].
  - rewrite !lookup_alter_eq, Hu in Hu'. injection Hu' as <-.
    exists u. split; [exact Hu |]. simpl.
    split; count_entry; lra.
  - rewrite !lookup_alter_ne in Hu' by congruence.
    exists u'. split; [exact Hu' |].
    split; count_entry; lra.
Qed.

Lemma api_transfer_reconciled (uid : nat) (identifier : string) (amount : Q)
    (category : string) (s : State) :
  reconciled s -> reconciled (api_transfer uid identifier amount category s).1.
Proof.
  intros Hrec. unfold api_transfer.
  destruct (users s !! uid) as [u |] eqn:Hu; [| exact Hrec].
  repeat (case_decide; [exact Hrec |]).
  destruct (find_user identifier s) as [rid |] eqn:Hr; [| exact Hrec].
  repeat (case_decide; [exact Hrec |]).
  destruct (find_user_Some _ _ _ Hr) as (r & Hrec_r & _).
  assert (Hgoal : forall s', 
             transactions s'
             = transactions s
               ++ [Transaction.mk (Some uid) (Some rid) amount "transfer"
                                  category (transfer_fee amount)] ->
             users s'
             = alter (User.award_xp 15) uid
                 (alter (fun u => User.set_total_txn_count
                                    (User.total_txn_count u + 1)%Z u) rid
                 (alter (fun u => User.set_total_received
                                    (User.total_received u + amount) u) rid
                 (alter (fun u => User.set_balance (User.balance u + amount) u)
                        rid
                 (alter (fun u => User.set_total_txn_count
                                    (User.total_txn_count u + 1)%Z u) uid
                 (alter (fun u => User.set_total_sent
                                    (User.total_sent u + amount) u) uid
                 (alter (fun u => User.set_balance
                                    (User.balance u
                                     - (amount + transfer_fee amount)) u)
                        uid (users s))))))) ->
             reconciled s').
  { intros s' Htx Hus.
    eapply (reconciled_append s); [exact Htx | | exact Hrec].
    intros j u' Hu'. rewrite Hus in Hu'.
    destruct (decide (j = uid)) as [-> | Hne];
      [| destruct (decide (j = rid)) as [-> | Hne']].
    - rewrite lookup_alter_eq, !(lookup_alter_ne _ _ rid uid) in Hu'
        by assumption.
      rewrite !lookup_alter_eq, Hu in Hu'. injection Hu' as <-.
      exists u. split; [exact Hu |]. simpl.
      split; count_entry; lra.
    - rewrite (lookup_alter_ne _ _ uid rid) in Hu' by congruence.
      rewrite !lookup_alter_eq in Hu'.
      rewrite !(lookup_alter_ne _ _ uid rid) in Hu' by congruence.
      rewrite Hrec_r in Hu'. injection Hu' as <-.
      exists r. split; [exact Hrec_r |]. simpl.
      split; count_entry; lra.
    - rewrite !lookup_alter_ne in Hu' by congruence.
      exists u'. split; [exact Hu' |].
      split; count_entry; lra. }
  destruct (contact_exists uid rid _); simpl; apply Hgoal; reflexivity.
Qed.

Ltac totals_frame :=
  intros ?; cbn [fst];
  repeat first
    [ reflexivity
    | rewrite totals_update_user by (intros ?; split; reflexivity)
    | progress change (totals ?j (add_transaction _ ?s)) with (totals j s)
    | progress change (totals ?j (add_notification _ _ _ ?s))
        with (totals j s)
    | progress change (totals ?j (set_savings_goals _ ?s)) with (totals j s)
    | progress change (totals ?j (set_split_bill_members _ ?s))
        with (totals j s) ].

Lemma api_savings_deposit_reconciled (uid goal_id : nat) (amount : Q)
    (s : State) :
  reconciled s -> reconciled (api_savings_deposit uid goal_id amount s).1.
Proof.
  intros Hrec. unfold api_savings_deposit.
  destruct (users s !! uid) as [u |] eqn:Hu; [| exact Hrec].
  destruct (find_goal goal_id uid s) as [g |]; [| exact Hrec].
  case_decide; [exact Hrec |].
  apply (reconciled_frame s); [| | | exact Hrec].
  - case_decide; totals_frame.
  - intros j. case_decide; simpl; rewrite sum_filter_snoc; count_entry; lra.
  - intros j. case_decide; simpl; rewrite sum_filter_snoc; count_entry; lra.
Qed.

Lemma api_savings_withdraw_reconciled (uid goal_id : nat) (amount : Q)
    (s : State) :
  reconciled s -> reconciled (api_savings_withdraw uid goal_id amount s).1.
Proof.
  intros Hrec. unfold api_savings_withdraw.
  destruct (users s !! uid) as [u |] eqn:Hu; [| exact Hrec].
  destruct (find_goal goal_id uid s) as [g |]; [| exact Hrec].
  case_decide; [exact Hrec |].
  apply (reconciled_frame s); [| | | exact Hrec].
  - totals_frame.
  - reflexivity.
  - reflexivity.
Qed.

Lemma api_savings_delete_reconciled (uid goal_id : nat) (s : State) :
  reconciled s -> reconciled (api_savings_delete uid goal_id s).1.
Proof.
  intros Hrec. unfold api_savings_delete.
  destruct (users s !! uid) as [u |] eqn:Hu; [| exact Hrec].
  destruct (find_goal goal_id uid s) as [g |]; [| exact Hrec].
  apply (reconciled_frame s); [| | | exact Hrec]; case_decide;
    first [reflexivity | totals_frame].
Qed.

Lemma api_split_pay_reconciled (uid bill_id : nat) (s : State) :
  reconciled s -> reconciled (api_split_pay uid bill_id s).1.
Proof.
  intros Hrec. unfold api_split_pay.
  destruct (users s !! uid) as [u |] eqn:Hu; [| exact Hrec].
  destruct (find_unpaid bill_id uid s) as [[i membership] |]; [| exact Hrec].
  case_decide; [exact Hrec |].
  destruct (split_bills s !! bill_id) as [bill |]; [| exact Hrec].
  destruct (users _ !! SplitBill.creator_id bill); [| exact Hrec].
  apply (reconciled_frame s); [| | | exact Hrec].
  - totals_frame.
  - intros j. simpl. rewrite sum_filter_snoc; count_entry; lra.
  - intros j. simpl. rewrite sum_filter_snoc; count_entry; lra.
Qed.

Lemma handle_reconciled (op : Op) (s : State) :
  moves_money op -> reconciled s -> reconciled (handle op s).1.
Proof.
  intros Hop Hrec. destruct op; try contradiction; simpl.
  - apply api_deposit_reconciled, Hrec.
  - apply api_withdraw_reconciled, Hrec.
  - apply api_transfer_reconciled, Hrec.
  - apply api_savings_deposit_reconciled, Hrec.
  - apply api_savings_withdraw_reconciled, Hrec.
  - apply api_savings_delete_reconciled, Hrec.
  - apply api_split_pay_reconciled, Hrec.
Qed.

(** C1 as stated fails: a savings deposit writes a ledger entry with the
    account as sender and leaves [total_sent] alone. *)
Lemma savings_entry_not_in_total_sent :
  let s' := (api_savings_deposit 1 1 100 saver).1 in
  reconciles_with_all_entries saver
  /\ (api_savings_deposit 1 1 100 saver).2 = Success
  /\ User.total_sent <$> users s' !! 1%nat = Some 0
  /\ sum_amounts (filter (sent_by 1) (transactions s')) == 100
  /\ ~ reconciles_with_all_entries s'.
Proof.
  split.
  { intros uid u Hu. unfold saver in Hu. simpl in Hu.
    apply lookup_insert_Some in Hu as [[<- <-] | [_ Hu]];
      [split; reflexivity | rewrite lookup_empty in Hu; discriminate]. }
  split; [reflexivity |]. split; [vm_compute; reflexivity |].
  split; [vm_compute; reflexivity |].
  intros Hall.
  destruct (users (api_savings_deposit 1 1 100 saver).1 !! 1%nat) as [u |] eqn:Hu;
    [| vm_compute in Hu; discriminate Hu].
  destruct (Hall 1%nat u Hu) as [Hsent _].
  vm_compute in Hu. injection Hu as <-.
  vm_compute in Hsent. discriminate Hsent.
Qed.

(** The settlement of a split share does the same on both sides. *)
Example split_entry_not_in_totals :
  let s := run [CreateSplitBill 1 "dinner" 100 [("bob@example.com", 50)];
                SettleSplitShare 2 1] two_accounts in
  totals 1 s = Some (0, 0) /\ totals 2 s = Some (0, 0)
  /\ sum_amounts (filter (sent_by 2) (transactions s)) == 50
  /\ sum_amounts (filter (received_by 1) (transactions s)) == 50.
Proof. vm_compute. repeat split; reflexivity. Qed.

(** C1, amended. Starting from a database in which it holds (one with an
    empty ledger and zero totals, say), after every sequence of deposits,
    withdrawals, transfers, savings deposits and withdrawals, deletions
    of a savings goal and settlements of a split share, every account's
    [total_sent] is the sum of the amounts of the ledger entries of type
    withdrawal or transfer it is the sender of, and its [total_received]
    is the sum over the entries of type deposit or transfer it is the
    receiver of. *)
Theorem totals_reconcile_with_counted_entries (ops : list Op) (s : State)
    (Hops : Forall moves_money ops) (Hrec : reconciled s) :
  reconciled (run ops s).
Proof.
  revert s Hrec. induction Hops as [| op ops Hop _ IH]; intros s Hrec.
  - exact Hrec.
  - rewrite run_cons. apply IH, handle_reconciled; assumption.
Qed.

Lemma empty_ledger_reconciled (s : State) :
  transactions s = [] ->
  (forall uid u, users s !! uid = Some u ->
     User.total_sent u == 0 /\ User.total_received u == 0) ->
  reconciled s.
Proof.
  intros Hl Hz uid u Hu. rewrite Hl. simpl. apply (Hz uid u Hu).
Qed.

Lemma two_accounts_reconciled : reconciled two_accounts.
Proof.
  apply empty_ledger_reconciled; [reflexivity |].
  intros uid u Hu. unfold two_accounts in Hu. simpl in Hu.
  apply lookup_insert_Some in Hu as [[_ <-] | [_ Hu]];
    [split; reflexivity |].
  apply lookup_insert_Some in Hu as [[_ <-] | [_ Hu]];
    [split; reflexivity |].
  rewrite lookup_empty in Hu. discriminate Hu.
Qed.

Lemma totals_reconcile_with_counted_entries_witness :
  reconciled
    (run [Deposit 1 250; Transfer 1 "bob@example.com" 1200 "other";
          Withdraw 2 300] two_accounts).
Proof.
  apply (totals_reconcile_with_counted_entries
           [Deposit 1 250; Transfer 1 "bob@example.com" 1200 "other";
            Withdraw 2 300] two_accounts).
  - repeat constructor.
  - exact two_accounts_reconciled.
Defined.

(** The totals of that run. *)
Example totals_after_run :
  let s := run [Deposit 1 250; Transfer 1 "bob@example.com" 1200 "other";
                Withdraw 2 300] two_accounts in
  match totals 1 s, totals 2 s with
  | Some (s1, r1), Some (s2, r2) =>
      s1 == 1200 /\ r1 == 250 /\ s2 == 300 /\ r2 == 1200
  | _, _ => False
  end.
Proof. vm_compute. repeat split; reflexivity. Qed.

(** ** Balances at or above zero when no negative amount is involved *)





















(** A request that is turned away leaves the database as it was. *)
Lemma turned_away_unchanged (op : Op) (s : State) (e : Error) :
  (handle op s).2 = Failure e -> (handle op s).1 = s.
Proof.
  destruct op; simpl;
    match goal with
    | |- (?h _ _).2 = _ -> _ => unfold h
    | |- (?h _ _ _).2 = _ -> _ => unfold h
    | |- (?h _ _ _ _).2 = _ -> _ => unfold h
    | |- (?h _ _ _ _ _).2 = _ -> _ => unfold h
    | |- (?h _ _ _ _ _ _).2 = _ -> _ => unfold h
    end;
    open_handler; intros H; try reflexivity; discriminate H.
Qed.

(** * Further properties of the handlers *)

(** ** Requests that are turned away *)

Lemma turned_away_unchanged_witness :
  (handle (Withdraw 1 5000) two_accounts).1 = two_accounts.
Proof.
  apply (turned_away_unchanged (Withdraw 1 5000) two_accounts
                               InsufficientFunds).
  reflexivity.
Defined.

(** ** Balances at or above zero *)



(** ** Deposits and withdrawals *)

(** A logged-in account's deposit is accepted exactly when the amount is
    above 0 and at most 100000 (the ceiling itself is accepted); it then
    adds the amount to the balance and to [total_received], awards 5 xp
    and appends one ledger entry received by the account, and no other
    account's row changes. *)
Theorem deposit_accepted_in_range (uid : nat) (amount : Q) (s : State)
    (u : User.t) (Hu : users s !! uid = Some u) :
  ((api_deposit uid amount s).2 = Success <-> 0 < amount /\ amount <= 100000)
  /\ ((api_deposit uid amount s).2 = Success ->
      exists u', users (api_deposit uid amount s).1 !! uid = Some u'
        /\ User.balance u' = User.balance u + amount
        /\ User.total_received u' = User.total_received u + amount
        /\ User.total_sent u' = User.total_sent u
        /\ User.xp u' = (User.xp u + 5)%Z
        /\ transactions (api_deposit uid amount s).1
           = transactions s
             ++ [Transaction.mk None (Some uid) amount "deposit" "other" 0]
        /\ forall j, j ≠ uid ->
             users (api_deposit uid amount s).1 !! j = users s !! j).
Proof.
  unfold api_deposit. rewrite Hu.
  destruct (decide (amount <= 0 \/ 100000 < amount)) as [Hbad | Hok]; simpl.
  - split; [| discriminate].
    split; [discriminate |]. intros [Hpos Hle].
    destruct Hbad as [Hbad | Hbad]; exfalso; lra.
  - apply Decidable.not_or in Hok as [Hpos Hle].
    apply Qnot_le_lt in Hpos. apply Qnot_lt_le in Hle.
    split; [split; [intros _; split; assumption | reflexivity] |].
    intros _. eexists. split; [read_users; rewrite Hu; reflexivity |].
    simpl. repeat split; try reflexivity.
    intros j Hj. read_users. reflexivity.
Qed.

Lemma deposit_accepted_in_range_witness :
  ((api_deposit 1 100000 two_accounts).2 = Success
   <-> 0 < 100000 /\ 100000 <= 100000)
  /\ ((api_deposit 1 100000 two_accounts).2 = Success ->
      exists u', users (api_deposit 1 100000 two_accounts).1 !! 1%nat = Some u'
        /\ User.balance u' = User.balance alice + 100000
        /\ User.total_received u' = User.total_received alice + 100000
        /\ User.total_sent u' = User.total_sent alice
        /\ User.xp u' = (User.xp alice + 5)%Z
        /\ transactions (api_deposit 1 100000 two_accounts).1
           = transactions two_accounts
             ++ [Transaction.mk None (Some 1%nat) 100000 "deposit" "other" 0]
        /\ forall j, j ≠ 1%nat ->
             users (api_deposit 1 100000 two_accounts).1 !! j
             = users two_accounts !! j).
Proof.
  apply (deposit_accepted_in_range 1 100000 two_accounts alice).
  reflexivity.
Defined.

(** A logged-in account's withdrawal is accepted exactly when the amount
    is above 0 and at most the balance, so the whole balance can be taken
    out; it then takes the amount from the balance, adds it to
    [total_sent], leaves xp alone and appends one ledger entry sent by the
    account; otherwise the answer names the amount when it is not
    positive and the balance when it is too small. *)
Theorem withdraw_accepted_up_to_balance (uid : nat) (amount : Q) (s : State)
    (u : User.t) (Hu : users s !! uid = Some u) :
  ((api_withdraw uid amount s).2 = Success
   <-> 0 < amount /\ amount <= User.balance u)
  /\ (amount <= 0 -> (api_withdraw uid amount s).2 = Failure InvalidAmount)
  /\ (0 < amount -> User.balance u < amount ->
      (api_withdraw uid amount s).2 = Failure InsufficientFunds)
  /\ ((api_withdraw uid amount s).2 = Success ->
      exists u', users (api_withdraw uid amount s).1 !! uid = Some u'
        /\ User.balance u' = User.balance u - amount
        /\ User.total_sent u' = User.total_sent u + amount
        /\ User.xp u' = User.xp u
        /\ transactions (api_withdraw uid amount s).1
           = transactions s
             ++ [Transaction.mk (Some uid) None amount "withdrawal" "other" 0]
        /\ forall j, j ≠ uid ->
             users (api_withdraw uid amount s).1 !! j = users s !! j).
Proof.
  unfold api_withdraw. rewrite Hu.
  destruct (decide (amount <= 0)) as [Hbad | Hpos]; simpl.
  - split; [split; [discriminate | intros [? ?]; exfalso; lra] |].
    split; [reflexivity |].
    split; [intros ? ?; exfalso; lra | discriminate].
  - apply Qnot_le_lt in Hpos.
    destruct (decide (User.balance u < amount)) as [Hshort | Hfunds]; simpl.
    + split; [split; [discriminate | intros [? ?]; exfalso; lra] |].
      split; [intros ?; exfalso; lra |].
      split; [reflexivity | discriminate].
    + apply Qnot_lt_le in Hfunds.
      split; [split; [intros _; split; assumption | reflexivity] |].
      split; [intros ?; exfalso; lra |].
      split; [intros ? ?; exfalso; lra |].
      intros _. eexists. split; [read_users; rewrite Hu; reflexivity |].
      simpl. repeat split; try reflexivity.
      intros j Hj. read_users. reflexivity.
Qed.

Lemma withdraw_accepted_up_to_balance_witness :
  ((api_withdraw 1 1000 two_accounts).2 = Success
   <-> 0 < 1000 /\ 1000 <= User.balance alice)
  /\ (1000 <= 0
      -> (api_withdraw 1 1000 two_accounts).2 = Failure InvalidAmount)
  /\ (0 < 1000 -> User.balance alice < 1000 ->
      (api_withdraw 1 1000 two_accounts).2 = Failure InsufficientFunds)
  /\ ((api_withdraw 1 1000 two_accounts).2 = Success ->
      exists u', users (api_withdraw 1 1000 two_accounts).1 !! 1%nat = Some u'
        /\ User.balance u' = User.balance alice - 1000
        /\ User.total_sent u' = User.total_sent alice + 1000
        /\ User.xp u' = User.xp alice
        /\ transactions (api_withdraw 1 1000 two_accounts).1
           = transactions two_accounts
             ++ [Transaction.mk (Some 1%nat) None 1000 "withdrawal" "other" 0]
        /\ forall j, j ≠ 1%nat ->
             users (api_withdraw 1 1000 two_accounts).1 !! j
             = users two_accounts !! j).
Proof.
  apply (withdraw_accepted_up_to_balance 1 1000 two_accounts alice).
  reflexivity.
Defined.

(** ** The transfer fee *)

Lemma round_half_even_le (x : Q) (n : Z) :
  x <= inject_Z n -> (round_half_even x <= n)%Z.
Proof.
  intros Hx. pose proof (round_half_even_close x) as Hc.
  apply Qabs_Qle_condition in Hc as [_ Hc].
  destruct (Z_le_gt_dec (round_half_even x) n) as [Hle | Hgt]; [exact Hle |].
  exfalso. assert (Hn : (n + 1 <= round_half_even x)%Z) by lia.
  rewrite Zle_Qle in Hn. rewrite inject_Z_plus in Hn.
  change (inject_Z 1) with 1 in Hn. lra.
Qed.

Lemma round_half_even_ge (x : Q) (n : Z) :
  inject_Z n <= x -> (n <= round_half_even x)%Z.
Proof.
  intros Hx. pose proof (round_half_even_close x) as Hc.
  apply Qabs_Qle_condition in Hc as [Hc _].
  destruct (Z_le_gt_dec n (round_half_even x)) as [Hle | Hgt]; [exact Hle |].
  exfalso. assert (Hn : (round_half_even x + 1 <= n)%Z) by lia.
  rewrite Zle_Qle in Hn. rewrite inject_Z_plus in Hn.
  change (inject_Z 1) with 1 in Hn. lra.
Qed.


(** ** Finding the recipient *)

Lemma find_user_None (identifier : string) (s : State) :
  find_user identifier s = None
  <-> forall k r, users s !! k = Some r ->
        User.email r ≠ identifier /\ User.account_number r ≠ identifier.
Proof.
  unfold find_user. split.
  - intros H k r Hr.
    destruct (List.find _ _) as [kv |] eqn:Hf; [discriminate |].
    assert (Hin : In (k, r) (map_to_list (users s))).
    { apply list_elem_of_In, elem_of_map_to_list. exact Hr. }
    pose proof (find_none _ _ Hf (k, r) Hin) as Hno. simpl in Hno.
    apply orb_false_iff in Hno as [He Ha].
    apply bool_decide_eq_false in He. apply bool_decide_eq_false in Ha.
    split; assumption.
  - intros Hno. destruct (List.find _ _) as [[k r] |] eqn:Hf; [| reflexivity].
    exfalso. apply find_some in Hf as [Hin Hp]. simpl in Hp.
    apply list_elem_of_In, elem_of_map_to_list in Hin.
    destruct (Hno k r Hin) as [He Ha].
    apply orb_true_iff in Hp as [Hp | Hp]; apply bool_decide_eq_true in Hp;
      contradiction.
Qed.

(** For a logged-in sender, a positive amount within the limit and an
    identifier that is not empty, a transfer is answered with "no user
    found" exactly when no account has the identifier as its email or as
    its account number. *)
Theorem transfer_recipient_not_found_iff (uid : nat) (identifier : string)
    (amount : Q) (category : string) (s : State) (u : User.t)
    (Hu : users s !! uid = Some u)
    (Hpos : 0 < amount) (Hlim : amount <= 50000)
    (Hid : identifier ≠ "") :
  (api_transfer uid identifier amount category s).2 = Failure RecipientNotFound
  <-> forall k r, users s !! k = Some r ->
        User.email r ≠ identifier /\ User.account_number r ≠ identifier.
Proof.
  rewrite <- find_user_None. unfold api_transfer. rewrite Hu.
  destruct (decide (amount <= 0)); [exfalso; lra |].
  destruct (decide (50000 < amount)); [exfalso; lra |].
  destruct (decide (identifier = "")); [contradiction |].
  destruct (find_user identifier s) as [rid |]; simpl;
    [| split; reflexivity].
  split; [| discriminate].
  destruct (decide (rid = uid)); [discriminate |].
  destruct (decide (User.balance u < amount + transfer_fee amount));
    [discriminate |].
  destruct (contact_exists _ _ _); discriminate.
Qed.

Lemma transfer_recipient_not_found_iff_witness :
  (api_transfer 1 "carol@example.com" 10 "other" two_accounts).2
  = Failure RecipientNotFound
  <-> forall k r, users two_accounts !! k = Some r ->
        User.email r ≠ "carol@example.com"
        /\ User.account_number r ≠ "carol@example.com".
Proof.
  apply (transfer_recipient_not_found_iff 1 "carol@example.com" 10 "other"
                                          two_accounts alice).
  - reflexivity.
  - reflexivity.
  - discriminate.
  - discriminate.
Defined.

(** ** Money in circulation *)







(** The figures of that transfer: 2500.00 before, 2498.80 after. *)
Example circulation_after_transfer :
  circulation rich_alice_poor_bob == 2500
  /\ circulation
       (handle (Transfer 1 "bob@example.com" 1200 "other")
               rich_alice_poor_bob).1
     == 24988 # 10.
Proof. vm_compute. split; reflexivity. Qed.

(** ** Savings goals *)







(** ** Settling a split share *)

Lemma filter_replace_row (Q : SplitBillMember.t -> Prop)
    `{!forall x, Decision (Q x)} (l : list SplitBillMember.t) (i : nat)
    (m y : SplitBillMember.t) :
  l !! i = Some m ->
  filter Q l = filter Q (take i l) ++ filter Q [m] ++ filter Q (drop (S i) l)
  /\ filter Q (<[i := y]> l)
     = filter Q (take i l) ++ filter Q [y] ++ filter Q (drop (S i) l).
Proof.
  intros Hi. split.
  - rewrite <- (take_drop_middle l i m Hi) at 1.
    rewrite filter_app. change (m :: drop (S i) l) with ([m] ++ drop (S i) l).
    rewrite filter_app. reflexivity.
  - rewrite insert_take_drop by (eapply lookup_lt_Some; exact Hi).
    rewrite filter_app. change (y :: drop (S i) l) with ([y] ++ drop (S i) l).
    rewrite filter_app. reflexivity.
Qed.

(** A settlement that succeeds pays exactly one unpaid row of the payer in
    that bill: the payer has one unpaid row fewer there, every other
    account's rows and the payer's rows in other bills are as before, and
    one ledger entry of type split from the payer to the bill's creator
    is written for the amount owed.  When that row was the payer's only
    unpaid row in the bill, a second attempt is answered with "nothing to
    pay" and changes nothing. *)
Theorem split_share_settled_once (uid bill_id : nat) (s s' : State)
    (H : api_split_pay uid bill_id s = (s', Success)) :
  exists m bill,
    m ∈ unpaid_rows bill_id uid s
    /\ split_bills s !! bill_id = Some bill
    /\ (length (unpaid_rows bill_id uid s') + 1)%nat
       = length (unpaid_rows bill_id uid s)
    /\ (forall b v, (b, v) ≠ (bill_id, uid) ->
          unpaid_rows b v s' = unpaid_rows b v s)
    /\ transactions s'
       = transactions s
         ++ [Transaction.mk (Some uid) (Some (SplitBill.creator_id bill))
                            (SplitBillMember.amount_owed m) "split" "other" 0]
    /\ (length (unpaid_rows bill_id uid s) = 1%nat ->
        api_split_pay uid bill_id s' = (s', Failure NothingToPay)).
Proof.
  unfold api_split_pay in H.
  destruct (users s !! uid) as [u |] eqn:Hu; [| discriminate].
  destruct (find_unpaid bill_id uid s) as [[i m] |] eqn:Hf; [| discriminate].
  case_decide; [discriminate |].
  destruct (split_bills s !! bill_id) as [bill |]; [| discriminate].
  destruct (users _ !! SplitBill.creator_id bill) as [c |] eqn:Hc;
    [| discriminate].
  injection H as <-.
  unfold find_unpaid in Hf. apply list_find_Some in Hf as (Hi & (Hb & Hv & Hp) & _).
  exists m, bill.
  assert (Hin : m ∈ unpaid_rows bill_id uid s).
  { unfold unpaid_rows. apply list_elem_of_filter. split; [auto |].
    apply list_elem_of_lookup. exists i. exact Hi. }
  assert (Hless : (length (unpaid_rows bill_id uid
                     (set_split_bill_members
                        (<[i := SplitBillMember.set_paid true m]>
                           (split_bill_members s)) s)) + 1)%nat
                  = length (unpaid_rows bill_id uid s)).
  { unfold unpaid_rows. cbn [split_bill_members set_split_bill_members].
    destruct (filter_replace_row
                (fun m => SplitBillMember.bill_id m = bill_id
                          /\ SplitBillMember.user_id m = uid
                          /\ SplitBillMember.paid m = false)
                (split_bill_members s) i m
                (SplitBillMember.set_paid true m) Hi) as [-> ->].
    rewrite (filter_cons_True _ m) by auto.
    rewrite (filter_cons_False _ (SplitBillMember.set_paid true m))
      by (simpl; intros (_ & _ & Hbad); discriminate Hbad).
    rewrite filter_nil, !length_app. simpl. lia. }
  split; [exact Hin |]. split; [reflexivity |].
  split; [exact Hless |].
  split.
  { intros b v Hbv. unfold unpaid_rows. simpl.
    destruct (filter_replace_row
                (fun m => SplitBillMember.bill_id m = b
                          /\ SplitBillMember.user_id m = v
                          /\ SplitBillMember.paid m = false)
                (split_bill_members s) i m
                (SplitBillMember.set_paid true m) Hi) as [-> ->].
    rewrite (filter_cons_False _ m) by (intros (? & ? & _); congruence).
    rewrite (filter_cons_False _ (SplitBillMember.set_paid true m))
      by (simpl; intros (? & ? & _); congruence).
    reflexivity. }
  split; [reflexivity |].
  intros Hone. rewrite Hone in Hless.
  assert (Hnil : unpaid_rows bill_id uid
                   (set_split_bill_members
                      (<[i := SplitBillMember.set_paid true m]>
                         (split_bill_members s)) s) = []).
  { apply length_zero_iff_nil. lia. }
  unfold api_split_pay.
  match goal with
  | |- context [users ?st !! uid] =>
      assert (Hu' : is_Some (users st !! uid))
  end.
  { simpl. destruct (decide (SplitBill.creator_id bill = uid)) as [-> | Hne].
    - rewrite !lookup_alter_eq, Hu. simpl. eauto.
    - rewrite lookup_alter_ne, lookup_alter_eq, Hu by exact Hne. simpl. eauto. }
  destruct Hu' as [u' ->].
  match goal with
  | |- context [find_unpaid bill_id uid ?st] =>
      assert (Hnone : find_unpaid bill_id uid st = None)
  end.
  { unfold find_unpaid. apply list_find_None, Forall_forall.
    intros x Hx Hpx. simpl in Hx.
    unfold unpaid_rows in Hnil. simpl in Hnil.
    exact (filter_nil_not_elem_of _ _ x Hnil Hpx Hx). }
  rewrite Hnone. reflexivity.
Qed.

Lemma split_share_settled_once_witness :
  let s := (api_split_create 1 "dinner" 100 [("bob@example.com", 50)]
                             two_accounts).1 in
  let s' := (api_split_pay 2 1 s).1 in
  exists m bill,
    m ∈ unpaid_rows 1 2 s
    /\ split_bills s !! 1%nat = Some bill
    /\ (length (unpaid_rows 1 2 s') + 1)%nat = length (unpaid_rows 1 2 s)
    /\ (forall b v, (b, v) ≠ (1%nat, 2%nat) ->
          unpaid_rows b v s' = unpaid_rows b v s)
    /\ transactions s'
       = transactions s
         ++ [Transaction.mk (Some 2%nat) (Some (SplitBill.creator_id bill))
                            (SplitBillMember.amount_owed m) "split" "other" 0]
    /\ (length (unpaid_rows 1 2 s) = 1%nat ->
        api_split_pay 2 1 s' = (s', Failure NothingToPay)).
Proof.
  apply (split_share_settled_once 2 1).
  vm_compute. reflexivity.
Defined.

(** A settlement that succeeds takes the amount owed from the payer, who
    could afford it, and gives it to the creator of the bill in full (no
    fee); xp and the running totals of both stay as they were, and every
    other account's row is unchanged.  A payer who is the creator gets
    back what was taken. *)
Theorem split_pay_moves_amount_owed (uid bill_id : nat) (s s' : State)
    (u : User.t)
    (Hu : users s !! uid = Some u)
    (H : api_split_pay uid bill_id s = (s', Success)) :
  exists i m bill c,
    find_unpaid bill_id uid s = Some (i, m)
    /\ split_bills s !! bill_id = Some bill
    /\ users s !! SplitBill.creator_id bill = Some c
    /\ SplitBillMember.amount_owed m <= User.balance u
    /\ (SplitBill.creator_id bill ≠ uid ->
        users s' !! uid
        = Some (User.set_balance
                  (User.balance u - SplitBillMember.amount_owed m) u)
        /\ users s' !! SplitBill.creator_id bill
           = Some (User.set_balance
                     (User.balance c + SplitBillMember.amount_owed m) c))
    /\ (SplitBill.creator_id bill = uid ->
        users s' !! uid
        = Some (User.set_balance
                  (User.balance u - SplitBillMember.amount_owed m
                   + SplitBillMember.amount_owed m) u))
    /\ (forall j, j ≠ uid -> j ≠ SplitBill.creator_id bill ->
          users s' !! j = users s !! j).
Proof.
  unfold api_split_pay in H. rewrite Hu in H.
  destruct (find_unpaid bill_id uid s) as [[i m] |] eqn:Hf; [| discriminate].
  destruct (decide (User.balance u < SplitBillMember.amount_owed m))
    as [| Hfunds]; [discriminate |].
  apply Qnot_lt_le in Hfunds.
  destruct (split_bills s !! bill_id) as [bill |]; [| discriminate].
  destruct (users _ !! SplitBill.creator_id bill) as [c1 |] eqn:Hc;
    [| discriminate].
  injection H as <-.
  assert (Hcs : exists c, users s !! SplitBill.creator_id bill = Some c).
  { simpl in Hc. destruct (decide (uid = SplitBill.creator_id bill)) as [He | Hne].
    - rewrite <- He, Hu. eauto.
    - rewrite lookup_alter_ne in Hc by exact Hne. eauto. }
  destruct Hcs as [c Hcs].
  exists i, m, bill, c.
  split; [reflexivity |]. split; [reflexivity |]. split; [exact Hcs |].
  split; [exact Hfunds |].
  split; [| split].
  - intros Hne. split; read_users; rewrite ?Hu, ?Hcs; reflexivity.
  - intros Heq. simpl. rewrite Heq, !lookup_alter_eq, Hu. reflexivity.
  - intros j Hj Hj'. read_users. reflexivity.
Qed.

Lemma split_pay_moves_amount_owed_witness :
  let s := (api_split_create 1 "dinner" 100 [("bob@example.com", 50)]
                             two_accounts).1 in
  let s' := (api_split_pay 2 1 s).1 in
  exists i m bill c,
    find_unpaid 1 2 s = Some (i, m)
    /\ split_bills s !! 1%nat = Some bill
    /\ users s !! SplitBill.creator_id bill = Some c
    /\ SplitBillMember.amount_owed m <= User.balance bob
    /\ (SplitBill.creator_id bill ≠ 2%nat ->
        users s' !! 2%nat
        = Some (User.set_balance
                  (User.balance bob - SplitBillMember.amount_owed m) bob)
        /\ users s' !! SplitBill.creator_id bill
           = Some (User.set_balance
                     (User.balance c + SplitBillMember.amount_owed m) c))
    /\ (SplitBill.creator_id bill = 2%nat ->
        users s' !! 2%nat
        = Some (User.set_balance
                  (User.balance bob - SplitBillMember.amount_owed m
                   + SplitBillMember.amount_owed m) bob))
    /\ (forall j, j ≠ 2%nat -> j ≠ SplitBill.creator_id bill ->
          users s' !! j = users s !! j).
Proof.
  apply (split_pay_moves_amount_owed 2 1).
  - vm_compute. reflexivity.
  - vm_compute. reflexivity.
Defined.

(** ** Contacts *)

Lemma contact_exists_false (owner contact : nat) (s : State) :
  contact_exists owner contact s = false ->
  forall k c, contacts s !! k = Some c ->
    ~ (Contact.user_id c = owner /\ Contact.contact_id c = contact).
Proof.
  unfold contact_exists. intros Hno k c Hc [Ho Hcid].
  assert (Hin : In (k, c) (map_to_list (contacts s))).
  { apply list_elem_of_In, elem_of_map_to_list. exact Hc. }
  assert (Hex : existsb
                  (fun kv => bool_decide (Contact.user_id kv.2 = owner)
                             && bool_decide (Contact.contact_id kv.2 = contact))
                  (map_to_list (contacts s)) = true).
  { apply existsb_exists. exists (k, c). split; [exact Hin |]. simpl.
    rewrite !bool_decide_eq_true_2 by assumption. reflexivity. }
  congruence.
Qed.

Lemma contacts_wellformed_insert (s : State) (owner contact : nat)
    (nickname : string) :
  contacts_wellformed s -> owner ≠ contact ->
  contact_exists owner contact s = false ->
  contacts_wellformed
    (set_contacts (<[next_id (contacts s) := Contact.mk owner contact nickname]>
                     (contacts s)) s).
Proof.
  intros [Hself Huniq] Hne Hnew. pose proof (contact_exists_false _ _ _ Hnew) as Hno.
  pose proof (next_id_fresh (contacts s)) as Hfresh.
  split; simpl.
  - intros k c Hc. apply lookup_insert_Some in Hc as [[_ <-] | [_ Hc]];
      [exact Hne | exact (Hself k c Hc)].
  - intros k k' c c' Hc Hc' Hu Hcid.
    apply lookup_insert_Some in Hc as [[<- <-] | [Hk Hc]];
      apply lookup_insert_Some in Hc' as [[<- <-] | [Hk' Hc']].
    + reflexivity.
    + exfalso. apply (Hno k' c' Hc'). simpl in Hu, Hcid. split; congruence.
    + exfalso. apply (Hno k c Hc). simpl in Hu, Hcid. split; congruence.
    + exact (Huniq k k' c c' Hc Hc' Hu Hcid).
Qed.

Lemma contacts_wellformed_subset (s s' : State) :
  (forall k c, contacts s' !! k = Some c -> contacts s !! k = Some c) ->
  contacts_wellformed s -> contacts_wellformed s'.
Proof.
  intros Hsub [Hself Huniq]. split.
  - intros k c Hc. exact (Hself k c (Hsub k c Hc)).
  - intros k k' c c' Hc Hc'. exact (Huniq k k' c c' (Hsub _ _ Hc) (Hsub _ _ Hc')).
Qed.

Lemma contacts_wellformed_same (s s' : State) :
  contacts s' = contacts s -> contacts_wellformed s -> contacts_wellformed s'.
Proof.
  intros Heq. apply contacts_wellformed_subset. intros k c. rewrite Heq. auto.
Qed.

Lemma split_members_contacts (ms : list (string * Q)) (bill_id : nat)
    (acc : State) :
  contacts (fold_left (fun a m => split_add_member bill_id m a) ms acc)
  = contacts acc.
Proof.
  revert acc. induction ms as [| m ms IH]; intros acc; [reflexivity |].
  simpl. rewrite IH. unfold split_add_member.
  destruct (find_user m.1 acc); reflexivity.
Qed.

Lemma handle_contacts_wellformed (op : Op) (s : State) :
  contacts_wellformed s -> contacts_wellformed (handle op s).1.
Proof.
  intros Hwf. destruct op; simpl.
  - unfold oauth2_callback. destruct (find_user_by_email _ _); simpl.
    + unfold login_streak. destruct (users s !! n); [| exact Hwf].
      repeat case_decide; exact Hwf.
    + exact Hwf.
  - unfold api_deposit. open_handler; exact Hwf.
  - unfold api_withdraw. open_handler; exact Hwf.
  - unfold api_transfer.
    destruct (users s !! uid); [| exact Hwf].
    repeat (case_decide; [exact Hwf |]).
    destruct (find_user identifier s) as [rid |]; [| exact Hwf].
    repeat (case_decide; [exact Hwf |]).
    destruct (contact_exists uid rid _) eqn:Hex; [exact Hwf |].
    cbn [fst]. apply contacts_wellformed_insert;
      [exact Hwf | congruence | exact Hex].
  - unfold api_savings_create. open_handler; exact Hwf.
  - unfold api_savings_deposit. open_handler; exact Hwf.
  - unfold api_savings_withdraw. open_handler; exact Hwf.
  - unfold api_savings_delete. open_handler; exact Hwf.
  - unfold api_contact_add.
    destruct (users s !! uid); [| exact Hwf].
    case_decide; [exact Hwf |].
    destruct (find_user identifier s) as [cid |]; [| exact Hwf].
    case_decide; [exact Hwf |].
    destruct (contact_exists uid cid s) eqn:Hex; [exact Hwf |].
    cbn [fst]. apply contacts_wellformed_insert;
      [exact Hwf | congruence | exact Hex].
  - unfold api_contact_delete.
    destruct (users s !! uid); [| exact Hwf].
    destruct (contacts s !! cid); [| exact Hwf].
    case_decide; [| exact Hwf]. cbn [fst].
    apply (contacts_wellformed_subset s); [| exact Hwf].
    intros k c Hc. simpl in Hc. apply lookup_delete_Some in Hc as [_ Hc].
    exact Hc.
  - unfold api_sched_create. open_handler; exact Hwf.
  - unfold api_sched_delete. open_handler; exact Hwf.
  - unfold api_split_create. open_handler; try exact Hwf.
    apply (contacts_wellformed_same s); [| exact Hwf].
    simpl. rewrite split_members_contacts. reflexivity.
  - unfold api_split_pay. open_handler; exact Hwf.
  - unfold api_delete_account. destruct (users s !! uid); [| exact Hwf].
    cbn [fst]. apply (contacts_wellformed_subset s); [| exact Hwf].
    intros k c Hc. simpl in Hc. apply map_lookup_filter_Some in Hc as [Hc _].
    exact Hc.
Qed.

(** The handlers keep the contacts table well formed by themselves:
    starting from a table without a self-contact and without a repeated
    (owner, contact) pair, as the empty table is, no sequence of requests
    produces one.  A transfer saves the recipient only if the pair is not
    there yet, and adding a contact that is there already is turned
    away. *)
Theorem contacts_stay_wellformed (ops : list Op) (s : State)
    (Hwf : contacts_wellformed s) :
  contacts_wellformed (run ops s).
Proof.
  revert s Hwf. induction ops as [| op ops IH]; intros s Hwf; [exact Hwf |].
  rewrite run_cons. apply IH, handle_contacts_wellformed, Hwf.
Qed.

Lemma no_contacts_wellformed (s : State) :
  contacts s = ∅ -> contacts_wellformed s.
Proof.
  intros He. split.
  - intros k c Hc. rewrite He, lookup_empty in Hc. discriminate Hc.
  - intros k k' c c' Hc. rewrite He, lookup_empty in Hc. discriminate Hc.
Qed.

Lemma contacts_stay_wellformed_witness :
  contacts_wellformed
    (run [Transfer 1 "bob@example.com" 10 "other";
          ContactAdd 1 "bob@example.com" "bobby";
          Transfer 1 "bob@example.com" 20 "other";
          ContactAdd 2 "alice@example.com" ""] two_accounts).
Proof.
  apply (contacts_stay_wellformed _ two_accounts).
  apply no_contacts_wellformed. reflexivity.
Defined.

(** The contacts of that run: one row per pair. *)
Example contacts_after_run :
  let s := run [Transfer 1 "bob@example.com" 10 "other";
                ContactAdd 1 "bob@example.com" "bobby";
                Transfer 1 "bob@example.com" 20 "other";
                ContactAdd 2 "alice@example.com" ""] two_accounts in
  (handle (ContactAdd 1 "bob@example.com" "bobby")
          (handle (Transfer 1 "bob@example.com" 10 "other") two_accounts).1).2
  = Failure AlreadyInContacts
  /\ size (contacts s) = 2%nat.
Proof. vm_compute. split; reflexivity. Qed.

(** Adding a contact and deleting the row just added gives back the
    database as it was. *)
Theorem contact_add_then_delete (uid : nat) (identifier nickname : string)
    (s s1 : State)
    (H : api_contact_add uid identifier nickname s = (s1, Success)) :
  contacts s1 !! next_id (contacts s) <> None
  /\ api_contact_delete uid (next_id (contacts s)) s1 = (s, Success).
Proof.
  unfold api_contact_add in H.
  destruct (users s !! uid) as [u |] eqn:Hu; [| discriminate].
  case_decide; [discriminate |].
  destruct (find_user identifier s) as [cid |]; [| discriminate].
  case_decide; [discriminate |].
  destruct (contact_exists uid cid s); [discriminate |].
  injection H as <-. simpl.
  split; [rewrite lookup_insert_eq; discriminate |].
  unfold api_contact_delete. simpl. rewrite Hu, lookup_insert_eq. simpl.
  destruct (decide (uid = uid)); [| contradiction].
  rewrite delete_insert_id by apply next_id_fresh.
  destruct s; reflexivity.
Qed.

Lemma contact_add_then_delete_witness :
  contacts (api_contact_add 1 "bob@example.com" "bobby" two_accounts).1
    !! next_id (contacts two_accounts) <> None
  /\ api_contact_delete 1 (next_id (contacts two_accounts))
       (api_contact_add 1 "bob@example.com" "bobby" two_accounts).1
     = (two_accounts, Success).
Proof.
  apply (contact_add_then_delete 1 "bob@example.com" "bobby").
  vm_compute. reflexivity.
Defined.

(** ** Scheduled payments *)

(** For a logged-in account, issuing a scheduled payment succeeds exactly
    when the identifier and the date are not empty, the amount is
    positive and the identifier resolves: the sender's balance, the
    transfer limit and whether the receiver is the sender play no part.
    When it succeeds it moves no money: the ledger and every balance and
    savings balance are as before, the payment is stored active under a
    fresh key, and the sender gets 10 xp. *)
Theorem scheduled_payment_moves_no_money (uid : nat) (identifier : string)
    (amount : Q) (frequency next_date : string) (s : State) (u : User.t)
    (Hu : users s !! uid = Some u) :
  let r := api_sched_create uid identifier amount frequency next_date s in
  (r.2 = Success
   <-> identifier ≠ "" /\ 0 < amount /\ next_date ≠ ""
       /\ find_user identifier s ≠ None)
  /\ (r.2 = Success ->
      exists rid,
        find_user identifier s = Some rid
        /\ scheduled_payments s !! next_id (scheduled_payments s) = None
        /\ scheduled_payments r.1
           = <[next_id (scheduled_payments s) :=
                 ScheduledPayment.mk uid rid amount frequency next_date true]>
               (scheduled_payments s)
        /\ transactions r.1 = transactions s
        /\ users r.1 !! uid = Some (User.award_xp 10 u)
        /\ forall j v, users s !! j = Some v ->
             exists v', users r.1 !! j = Some v'
                        /\ User.balance v' = User.balance v
                        /\ User.savings_balance v' = User.savings_balance v).
Proof.
  cbv zeta. unfold api_sched_create. rewrite Hu.
  destruct (decide (identifier = "" \/ amount <= 0 \/ next_date = ""))
    as [Hbad | Hok]; simpl.
  - split; [| discriminate]. split; [discriminate |].
    intros (Hid & Hpos & Hdate & _).
    destruct Hbad as [? | [? | ?]]; [contradiction | exfalso; lra | contradiction].
  - apply Decidable.not_or in Hok as [Hid Hok].
    apply Decidable.not_or in Hok as [Hpos Hdate]. apply Qnot_le_lt in Hpos.
    destruct (find_user identifier s) as [rid |] eqn:Hr; simpl.
    + split; [split; [intros _; repeat split; try assumption; discriminate
                     | reflexivity] |].
      intros _. exists rid. split; [reflexivity |].
      split; [apply next_id_fresh |]. split; [reflexivity |].
      split; [reflexivity |].
      split; [rewrite lookup_alter_eq, Hu; reflexivity |].
      intros j v Hv. destruct (decide (uid = j)) as [<- | Hne].
      * rewrite lookup_alter_eq, Hv. eexists. split; [reflexivity |].
        split; reflexivity.
      * rewrite lookup_alter_ne by exact Hne. exists v.
        split; [exact Hv | split; reflexivity].
    + split; [| discriminate]. split; [discriminate |].
      intros (_ & _ & _ & Hfound). contradiction.
Qed.

(** An account that schedules a million to itself, with 1000.00 on it. *)
Lemma scheduled_payment_moves_no_money_witness :
  let r := api_sched_create 1 "alice@example.com" 1000000 "monthly"
                            "2030-01-01" two_accounts in
  (r.2 = Success
   <-> "alice@example.com" ≠ "" /\ 0 < 1000000 /\ "2030-01-01" ≠ ""
       /\ find_user "alice@example.com" two_accounts ≠ None)
  /\ (r.2 = Success ->
      exists rid,
        find_user "alice@example.com" two_accounts = Some rid
        /\ scheduled_payments two_accounts
             !! next_id (scheduled_payments two_accounts) = None
        /\ scheduled_payments r.1
           = <[next_id (scheduled_payments two_accounts) :=
                 ScheduledPayment.mk 1 rid 1000000 "monthly" "2030-01-01"
                                     true]>
               (scheduled_payments two_accounts)
        /\ transactions r.1 = transactions two_accounts
        /\ users r.1 !! 1%nat = Some (User.award_xp 10 alice)
        /\ forall j v, users two_accounts !! j = Some v ->
             exists v', users r.1 !! j = Some v'
                        /\ User.balance v' = User.balance v
                        /\ User.savings_balance v' = User.savings_balance v).
Proof.
  apply (scheduled_payment_moves_no_money 1 "alice@example.com" 1000000
           "monthly" "2030-01-01" two_accounts alice).
  reflexivity.
Defined.

(** Cancelling a scheduled payment keeps its row and clears its [active]
    flag, leaves the other payments alone, and can be repeated without
    further effect; an account other than the sender cannot cancel it. *)
Theorem cancel_scheduled_payment_is_soft (uid sid : nat) (s s' : State)
    (H : api_sched_delete uid sid s = (s', Success)) :
  exists sp,
    scheduled_payments s !! sid = Some sp
    /\ ScheduledPayment.sender_id sp = uid
    /\ scheduled_payments s' !! sid
       = Some (ScheduledPayment.set_active false sp)
    /\ (forall k, k ≠ sid ->
          scheduled_payments s' !! k = scheduled_payments s !! k)
    /\ api_sched_delete uid sid s' = (s', Success)
    /\ (forall other, other ≠ uid ->
          (api_sched_delete other sid s).1 = s
          /\ (api_sched_delete other sid s).2 ≠ Success).
Proof.
  unfold api_sched_delete in H.
  destruct (users s !! uid) as [u |] eqn:Hu; [| discriminate].
  destruct (scheduled_payments s !! sid) as [sp |] eqn:Hsp; [| discriminate].
  destruct (decide (ScheduledPayment.sender_id sp = uid)) as [Hown |];
    [| discriminate].
  injection H as <-. exists sp.
  split; [reflexivity |]. split; [exact Hown |].
  split; [simpl; rewrite lookup_alter_eq, Hsp; reflexivity |].
  split; [intros k Hk; simpl; rewrite lookup_alter_ne by congruence;
          reflexivity |].
  split.
  - unfold api_sched_delete. simpl. rewrite Hu, lookup_alter_eq, Hsp. simpl.
    destruct (decide (ScheduledPayment.sender_id sp = uid)); [| contradiction].
    f_equal. unfold set_scheduled_payments. simpl. f_equal.
    apply map_eq. intros k. destruct (decide (sid = k)) as [<- | Hne].
    + rewrite !lookup_alter_eq, Hsp. reflexivity.
    + rewrite !lookup_alter_ne by exact Hne. reflexivity.
  - intros other Hother. unfold api_sched_delete.
    destruct (users s !! other); simpl; [| split; [reflexivity | discriminate]].
    rewrite Hsp.
    destruct (decide (ScheduledPayment.sender_id sp = other)); [congruence |].
    split; [reflexivity | discriminate].
Qed.

Lemma cancel_scheduled_payment_is_soft_witness :
  let s := entangled in
  let s' := (api_sched_delete 2 1 s).1 in
  exists sp,
    scheduled_payments s !! 1%nat = Some sp
    /\ ScheduledPayment.sender_id sp = 2%nat
    /\ scheduled_payments s' !! 1%nat
       = Some (ScheduledPayment.set_active false sp)
    /\ (forall k, k ≠ 1%nat ->
          scheduled_payments s' !! k = scheduled_payments s !! k)
    /\ api_sched_delete 2 1 s' = (s', Success)
    /\ (forall other, other ≠ 2%nat ->
          (api_sched_delete other 1 s).1 = s
          /\ (api_sched_delete other 1 s).2 ≠ Success).
Proof.
  apply (cancel_scheduled_payment_is_soft 2 1 entangled).
  vm_compute. reflexivity.
Defined.

(** ** Creating a split bill *)

Lemma split_create_rows_witness :
  let s := two_accounts in
  let s' := (api_split_create 1 "trip" 300
               [("bob@example.com", 100); ("nobody@example.com", 100);
                ("LG00000002BBBB", 50)] s).1 in
  let bill_id := next_id (split_bills s) in
  split_bills s' = <[bill_id := SplitBill.mk 1 "trip" 300]> (split_bills s)
  /\ split_bill_members s'
     = split_bill_members s
       ++ SplitBillMember.mk bill_id 1 0 true
          :: omap (member_row bill_id s)
                  [("bob@example.com", 100); ("nobody@example.com", 100);
                   ("LG00000002BBBB", 50)].
Proof.
  apply (split_create_rows two_accounts _ 1 "trip" 300).
  vm_compute. reflexivity.
Defined.

(** The rows of that bill: the creator's, and two for account 2, which
    the request names twice; the member that does not resolve has none. *)
Example split_create_rows_figures :
  split_bill_members
    (api_split_create 1 "trip" 300
       [("bob@example.com", 100); ("nobody@example.com", 100);
        ("LG00000002BBBB", 50)] two_accounts).1
  = [SplitBillMember.mk 1 1 0 true; SplitBillMember.mk 1 2 100 false;
     SplitBillMember.mk 1 2 50 false].
Proof. vm_compute. reflexivity. Qed.

(** ** Account creation and logins *)

Lemma find_user_by_email_None (email : string) (s : State) :
  find_user_by_email email s = None
  <-> forall k r, users s !! k = Some r -> User.email r ≠ email.
Proof.
  unfold find_user_by_email. split.
  - intros H k r Hr.
    destruct (List.find _ _) as [kv |] eqn:Hf; [discriminate |].
    assert (Hin : In (k, r) (map_to_list (users s))).
    { apply list_elem_of_In, elem_of_map_to_list. exact Hr. }
    pose proof (find_none _ _ Hf (k, r) Hin) as Hno. simpl in Hno.
    apply bool_decide_eq_false in Hno. exact Hno.
  - intros Hno. destruct (List.find _ _) as [[k r] |] eqn:Hf; [| reflexivity].
    exfalso. apply find_some in Hf as [Hin Hp]. simpl in Hp.
    apply list_elem_of_In, elem_of_map_to_list in Hin.
    apply bool_decide_eq_true in Hp. exact (Hno k r Hin Hp).
Qed.

(** A callback for an email no account has creates exactly one account,
    under a key that was free: balance 1000, no savings, xp 100, tier
    bronze, streak 0, last login today, with the welcome notification;
    every account that existed keeps its row.  From then on the email
    resolves to the new account, so the next callback for it logs in and
    creates nothing. *)
Theorem first_login_creates_account (email account_number : string)
    (today : Z) (s : State)
    (Hnew : find_user_by_email email s = None) :
  let uid := next_id (users s) in
  let s' := (oauth2_callback email account_number today s).1 in
  users s !! uid = None
  /\ (exists u, users s' !! uid = Some u
        /\ User.email u = email /\ User.account_number u = account_number
        /\ User.balance u = 1000 /\ User.savings_balance u = 0
        /\ User.xp u = 100%Z /\ User.tier u = "bronze"
        /\ User.streak u = 0%Z /\ User.last_login u = Some today
        /\ User.total_sent u = 0 /\ User.total_received u = 0
        /\ User.total_txn_count u = 0%Z)
  /\ (forall j v, users s !! j = Some v -> users s' !! j = Some v)
  /\ (forall j, j ≠ uid -> users s' !! j = users s !! j)
  /\ notifications s' = notifications s ++ [Notification.mk uid Welcome "success"]
  /\ find_user_by_email email s' = Some uid
  /\ forall account_number' today',
       dom (users (oauth2_callback email account_number' today' s').1)
       = dom (users s').
Proof.
  assert (Hs' : (oauth2_callback email account_number today s).1
                = add_notification (next_id (users s)) Welcome "success"
                    (update_user (next_id (users s)) (User.award_xp 100)
                       (set_users (<[next_id (users s) :=
                                       User.new email account_number today]>
                                     (users s)) s))).
  { unfold oauth2_callback. rewrite Hnew. reflexivity. }
  cbv zeta. rewrite Hs'. clear Hs'.
  pose proof (next_id_fresh (users s)) as Hfresh.
  assert (Hothers : forall j, j ≠ next_id (users s) ->
            users (add_notification (next_id (users s)) Welcome "success"
                     (update_user (next_id (users s)) (User.award_xp 100)
                        (set_users (<[next_id (users s) :=
                                        User.new email account_number today]>
                                      (users s)) s))) !! j
            = users s !! j).
  { intros j Hj. simpl. rewrite lookup_alter_ne, lookup_insert_ne by congruence.
    reflexivity. }
  assert (Hmine : users (add_notification (next_id (users s)) Welcome "success"
                     (update_user (next_id (users s)) (User.award_xp 100)
                        (set_users (<[next_id (users s) :=
                                        User.new email account_number today]>
                                      (users s)) s))) !! next_id (users s)
                  = Some (User.award_xp 100
                            (User.new email account_number today))).
  { simpl. rewrite lookup_alter_eq, lookup_insert_eq. reflexivity. }
  set (s' := add_notification _ _ _ _) in *.
  assert (Hfind : find_user_by_email email s' = Some (next_id (users s))).
  { destruct (find_user_by_email email s') as [k |] eqn:Hk.
    - apply find_user_by_email_Some in Hk as (r & Hr & He).
      destruct (decide (k = next_id (users s))) as [-> | Hne]; [reflexivity |].
      exfalso. rewrite Hothers in Hr by exact Hne.
      exact (proj1 (find_user_by_email_None email s) Hnew k r Hr He).
    - exfalso.
      exact (proj1 (find_user_by_email_None email s') Hk _ _ Hmine eq_refl). }
  split; [exact Hfresh |].
  split; [eexists; split; [exact Hmine |]; repeat split |].
  split.
  { intros j v Hv. rewrite Hothers; [exact Hv |].
    intros ->. rewrite Hfresh in Hv. discriminate Hv. }
  split; [exact Hothers |]. split; [reflexivity |]. split; [exact Hfind |].
  intros a' t'. unfold oauth2_callback. rewrite Hfind. cbn [fst].
  unfold login_streak. rewrite Hmine.
  repeat case_decide; simpl; rewrite ?dom_alter_L; reflexivity.
Qed.

Lemma first_login_creates_account_witness :
  let uid := next_id (users two_accounts) in
  let s' := (oauth2_callback "carol@example.com" "LG00000003CCCC" 12
                             two_accounts).1 in
  users two_accounts !! uid = None
  /\ (exists u, users s' !! uid = Some u
        /\ User.email u = "carol@example.com"
        /\ User.account_number u = "LG00000003CCCC"
        /\ User.balance u = 1000 /\ User.savings_balance u = 0
        /\ User.xp u = 100%Z /\ User.tier u = "bronze"
        /\ User.streak u = 0%Z /\ User.last_login u = Some 12%Z
        /\ User.total_sent u = 0 /\ User.total_received u = 0
        /\ User.total_txn_count u = 0%Z)
  /\ (forall j v, users two_accounts !! j = Some v -> users s' !! j = Some v)
  /\ (forall j, j ≠ uid -> users s' !! j = users two_accounts !! j)
  /\ notifications s'
     = notifications two_accounts ++ [Notification.mk uid Welcome "success"]
  /\ find_user_by_email "carol@example.com" s' = Some uid
  /\ forall account_number' today',
       dom (users (oauth2_callback "carol@example.com" account_number' today'
                                   s').1)
       = dom (users s').
Proof.
  apply (first_login_creates_account "carol@example.com" "LG00000003CCCC" 12
                                     two_accounts).
  vm_compute. reflexivity.
Defined.

Lemma set_users_same (s : State) : set_users (users s) s = s.
Proof. destruct s; reflexivity. Qed.

(** A login on the stored date changes nothing at all. *)
Lemma login_streak_same_day (today : Z) (uid : nat) (s : State) (u : User.t) :
  users s !! uid = Some u -> User.last_login u = Some today ->
  login_streak today uid s = s.
Proof.
  intros Hu Hlast. unfold login_streak. rewrite Hu.
  destruct (decide (User.last_login u = Some (today - 1)%Z)) as [Hy | _];
    [rewrite Hlast in Hy; injection Hy; lia |].
  destruct (decide (User.last_login u ≠ Some today)) as [Hn | _];
    [contradiction |].
  unfold update_user. rewrite alter_id; [apply set_users_same |].
  intros v Hv. rewrite Hu in Hv. injection Hv as <-.
  destruct u; simpl in *. subst. reflexivity.
Qed.

Lemma login_streak_stores_today (today : Z) (uid : nat) (s : State)
    (u : User.t) :
  users s !! uid = Some u ->
  exists u1, users (login_streak today uid s) !! uid = Some u1
             /\ User.last_login u1 = Some today.
Proof.
  intros Hu. unfold login_streak. rewrite Hu.
  repeat case_decide; eexists;
    (split; [read_users; rewrite Hu; reflexivity | reflexivity]).
Qed.

(** Logging in twice on the same day is the same as logging in once:
    the second login leaves the whole database as the first one left
    it. *)
Theorem login_twice_same_day (today : Z) (uid : nat) (s : State) :
  login_streak today uid (login_streak today uid s) = login_streak today uid s.
Proof.
  destruct (users s !! uid) as [u |] eqn:Hu.
  - destruct (login_streak_stores_today today uid s u Hu) as (u1 & Hu1 & Hl1).
    exact (login_streak_same_day today uid _ u1 Hu1 Hl1).
  - unfold login_streak at 2. rewrite Hu. unfold login_streak. rewrite Hu.
    reflexivity.
Qed.

Lemma login_next_day (day : Z) (uid : nat) (s : State) (u : User.t) :
  users s !! uid = Some u -> User.last_login u = Some day ->
  exists u1, users (login_streak (day + 1) uid s) !! uid = Some u1
             /\ User.streak u1 = (User.streak u + 1)%Z
             /\ User.last_login u1 = Some (day + 1)%Z
             /\ (User.xp u + 10 <= User.xp u1)%Z.
Proof.
  intros Hu Hlast. unfold login_streak. rewrite Hu.
  destruct (decide (User.last_login u = Some (day + 1 - 1)%Z)) as [_ | Hn];
    [| exfalso; apply Hn; rewrite Hlast; f_equal; lia].
  case_decide; eexists;
    (split; [read_users; rewrite Hu; reflexivity |]); simpl;
    (repeat split; try reflexivity; lia).
Qed.

(** Logins on [n] days in a row, the first on the day after the stored
    date, add [n] to the streak, store the last of these days and award
    at least 10 xp a day. *)
Theorem streak_counts_consecutive_days (n : nat) (uid : nat) (day : Z)
    (s : State) (u : User.t)
    (Hu : users s !! uid = Some u)
    (Hlast : User.last_login u = Some day) :
  exists u', users (daily_logins uid day n s) !! uid = Some u'
             /\ User.streak u' = (User.streak u + Z.of_nat n)%Z
             /\ User.last_login u' = Some (day + Z.of_nat n)%Z
             /\ (User.xp u + 10 * Z.of_nat n <= User.xp u')%Z.
Proof.
  revert day s u Hu Hlast. induction n as [| n IH]; intros day s u Hu Hlast.
  - exists u. simpl. rewrite Hlast.
    repeat split; [exact Hu | lia | f_equal; lia | lia].
  - destruct (login_next_day day uid s u Hu Hlast)
      as (u1 & Hu1 & Hs1 & Hl1 & Hx1).
    destruct (IH (day + 1)%Z _ u1 Hu1 Hl1) as (u' & Hu' & Hs' & Hl' & Hx').
    exists u'. cbn [daily_logins].
    split; [exact Hu' |]. split; [lia |].
    split; [rewrite Hl'; f_equal; lia | lia].
Qed.

Lemma streak_counts_consecutive_days_witness :
  exists u', users (daily_logins 1 10 7 two_accounts) !! 1%nat = Some u'
             /\ User.streak u' = (User.streak alice + Z.of_nat 7)%Z
             /\ User.last_login u' = Some (10 + Z.of_nat 7)%Z
             /\ (User.xp alice + 10 * Z.of_nat 7 <= User.xp u')%Z.
Proof.
  apply (streak_counts_consecutive_days 7 1 10 two_accounts alice).
  - reflexivity.
  - reflexivity.
Defined.

(** A week of daily logins from a new account: streak 7, the 70 xp of
    the seven days and the 50 xp of the seven-day bonus, one streak
    notification. *)
Example one_week_of_logins :
  User.xp <$> users (daily_logins 1 10 7 two_accounts) !! 1%nat
  = Some (100 + 70 + 50)%Z
  /\ notifications (daily_logins 1 10 7 two_accounts)
     = [Notification.mk 1 (DayStreak 7) "success"].
Proof. vm_compute. split; reflexivity. Qed.

(** ** What the deletion of an account leaves in place *)




(** After account 2 is gone, account 1 has received 50 according to its
    total and nothing according to the ledger. *)
Example delete_account_forgets_received :
  let s' := (api_delete_account 2 entangled).1 in
  totals 1 s' = Some (0, 0 + 50) /\ transactions s' = [].
Proof. vm_compute. split; reflexivity. Qed.

(** ** Progress of the accounts a request does not act for *)

Lemma progress_kept_refl (j : nat) (s : State) : progress_kept j s s.
Proof. intros u Hu. exists u. split; [exact Hu | repeat split]. Qed.

Lemma progress_kept_update_user (j uid : nat) (f : User.t -> User.t)
    (s0 s : State) :
  uid ≠ j \/ (forall u, same_progress u (f u)) ->
  progress_kept j s0 s -> progress_kept j s0 (update_user uid f s).
Proof.
  intros Hf H u Hu. destruct (H u Hu) as (v & Hv & Huv).
  rewrite users_update_user. destruct (decide (uid = j)) as [-> | Hne].
  - destruct Hf as [Hf | Hf]; [contradiction |].
    exists (f v). rewrite Hv. split; [reflexivity |].
    destruct Huv as (? & ? & ? & ?). destruct (Hf v) as (? & ? & ? & ?).
    repeat split; congruence.
  - exists v. split; assumption.
Qed.

Lemma progress_kept_split_members (ms : list (string * Q)) (j bill_id : nat)
    (s0 s : State) :
  progress_kept j s0 s ->
  progress_kept j s0
    (fold_left (fun acc m => split_add_member bill_id m acc) ms s).
Proof.
  revert s. induction ms as [| m ms IH]; intros s H; simpl; [exact H |].
  apply IH. unfold split_add_member. destruct (find_user m.1 s); exact H.
Qed.

Ltac keep_progress :=
  cbn [fst];
  repeat first
    [ apply progress_kept_refl
    | apply progress_kept_split_members
    | apply progress_kept_update_user;
      [ first [ left; congruence
              | right; intros ?; repeat split; reflexivity ] |]
    | progress change (progress_kept ?j ?s0 (add_transaction _ ?s))
        with (progress_kept j s0 s)
    | progress change (progress_kept ?j ?s0 (add_notification _ _ _ ?s))
        with (progress_kept j s0 s)
    | progress change (progress_kept ?j ?s0 (set_savings_goals _ ?s))
        with (progress_kept j s0 s)
    | progress change (progress_kept ?j ?s0 (set_contacts _ ?s))
        with (progress_kept j s0 s)
    | progress change (progress_kept ?j ?s0 (set_scheduled_payments _ ?s))
        with (progress_kept j s0 s)
    | progress change (progress_kept ?j ?s0 (set_split_bills _ ?s))
        with (progress_kept j s0 s)
    | progress change (progress_kept ?j ?s0 (set_split_bill_members _ ?s))
        with (progress_kept j s0 s) ].

(** A request changes the xp, tier, streak and last login of the account
    it acts for only: every other account, the recipient of a transfer
    and the creator of a settled bill included, is still there with the
    progress it had (the account a deletion removes is the one it acts
    for). *)
Theorem progress_of_others_untouched (op : Op) (s : State) (j : nat)
    (u : User.t)
    (Hu : users s !! j = Some u)
    (Hother : acting_user op s ≠ Some j) :
  exists u', users (handle op s).1 !! j = Some u' /\ same_progress u u'.
Proof.
  cut (progress_kept j s (handle op s).1); [intros Hk; exact (Hk u Hu) |].
  destruct op; simpl in Hother |- *.
  - unfold oauth2_callback.
    destruct (find_user_by_email email s) as [uid |]; cbn [fst].
    + unfold login_streak. destruct (users s !! uid); [| keep_progress].
      repeat case_decide; keep_progress.
    + assert (Hne : next_id (users s) ≠ j).
      { intros <-. rewrite next_id_fresh in Hu. discriminate Hu. }
      intros v Hv. exists v. split; [| repeat split].
      simpl. rewrite lookup_alter_ne, lookup_insert_ne by exact Hne. exact Hv.
  - unfold api_deposit. open_handler; keep_progress.
  - unfold api_withdraw. open_handler; keep_progress.
  - unfold api_transfer. open_handler; keep_progress.
  - unfold api_savings_create. open_handler; keep_progress.
  - unfold api_savings_deposit. open_handler; keep_progress.
  - unfold api_savings_withdraw. open_handler; keep_progress.
  - unfold api_savings_delete. open_handler; keep_progress.
  - unfold api_contact_add. open_handler; keep_progress.
  - unfold api_contact_delete. open_handler; keep_progress.
  - unfold api_sched_create. open_handler; keep_progress.
  - unfold api_sched_delete. open_handler; keep_progress.
  - unfold api_split_create. open_handler; keep_progress.
  - unfold api_split_pay. open_handler; keep_progress.
  - unfold api_delete_account. destruct (users s !! uid); [| keep_progress].
    intros v Hv. exists v. split; [| repeat split]. simpl.
    rewrite lookup_delete_ne by congruence. exact Hv.
Qed.

Lemma progress_of_others_untouched_witness :
  exists u',
    users (handle (Transfer 1 "bob@example.com" 100 "other") two_accounts).1
      !! 2%nat = Some u'
    /\ same_progress bob u'.
Proof.
  apply (progress_of_others_untouched
           (Transfer 1 "bob@example.com" 100 "other") two_accounts 2 bob).
  - reflexivity.
  - discriminate.
Defined.

(** ** The percentage shown for a savings goal *)

Lemma round1_le (q : Q) (n : Z) :
  q <= inject_Z n -> round1 q <= inject_Z n.
Proof.
  intros Hq. unfold round1.
  assert (Hr : (round_half_even (q * 10) <= n * 10)%Z).
  { apply round_half_even_le. rewrite inject_Z_mult.
    change (inject_Z 10) with 10. lra. }
  rewrite Zle_Qle, inject_Z_mult in Hr. change (inject_Z 10) with 10 in Hr.
  assert (Hdiv : inject_Z (round_half_even (q * 10)) / 10
                 == inject_Z (round_half_even (q * 10)) * (1 # 10)) by field.
  rewrite Hdiv. lra.
Qed.

Lemma round1_ge (q : Q) (n : Z) :
  inject_Z n <= q -> inject_Z n <= round1 q.
Proof.
  intros Hq. unfold round1.
  assert (Hr : (n * 10 <= round_half_even (q * 10))%Z).
  { apply round_half_even_ge. rewrite inject_Z_mult.
    change (inject_Z 10) with 10. lra. }
  rewrite Zle_Qle, inject_Z_mult in Hr. change (inject_Z 10) with 10 in Hr.
  assert (Hdiv : inject_Z (round_half_even (q * 10)) / 10
                 == inject_Z (round_half_even (q * 10)) * (1 # 10)) by field.
  rewrite Hdiv. lra.
Qed.

(** The percentage of a goal is never above 100; it is not negative when
    the amount saved is not; it is 0 for a target that is not positive
    (no division takes place); and for a positive target it is 100 as
    soon as the amount saved reaches the target. *)
Theorem goal_percentage_bounds (g : SavingsGoal.t) :
  to_dict_pct g <= 100
  /\ (0 <= SavingsGoal.current g -> 0 <= to_dict_pct g)
  /\ (SavingsGoal.target g <= 0 -> to_dict_pct g == 0)
  /\ (0 < SavingsGoal.target g ->
      SavingsGoal.target g <= SavingsGoal.current g -> to_dict_pct g == 100).
Proof.
  unfold to_dict_pct. cbv zeta.
  destruct (decide (0 < SavingsGoal.target g)) as [Hpos | Hnon].
  - set (share := SavingsGoal.current g / SavingsGoal.target g * 100).
    assert (Hshare_pos : 0 <= SavingsGoal.current g -> 0 <= share).
    { intros Hc. unfold share.
      assert (0 <= SavingsGoal.current g / SavingsGoal.target g).
      { apply Qle_shift_div_l; [exact Hpos | lra]. }
      lra. }
    assert (Hshare_full : SavingsGoal.target g <= SavingsGoal.current g ->
                          100 <= share).
    { intros Hc. unfold share.
      assert (1 <= SavingsGoal.current g / SavingsGoal.target g).
      { apply Qle_shift_div_l; [exact Hpos | lra]. }
      lra. }
    destruct (decide (100 < share)) as [Hcap | Hunder].
    + split; [vm_compute; discriminate |].
      split; [intros _; vm_compute; discriminate |].
      split; [intros Hle; exfalso; lra |].
      intros _ _. reflexivity.
    + apply Qnot_lt_le in Hunder.
      split; [apply (round1_le share 100); exact Hunder |].
      split; [intros Hc; apply (round1_ge share 0), Hshare_pos, Hc |].
      split; [intros Hle; exfalso; lra |].
      intros _ Hc. apply Qle_antisym.
      * apply (round1_le share 100). exact Hunder.
      * apply (round1_ge share 100), Hshare_full, Hc.
  - destruct (decide (100 < 0)) as [Hbad | _]; [exfalso; revert Hbad; lra |].
    split; [vm_compute; discriminate |].
    split; [intros _; vm_compute; discriminate |].
    split; [intros _; reflexivity |].
    intros Hpos. contradiction.
Qed.

(** The percentages of an empty, a half-full, a full, an over-full and a
    target-less goal. *)
Example goal_percentage_figures :
  to_dict_pct (SavingsGoal.mk 1 "car" 1000 0) == 0
  /\ to_dict_pct (SavingsGoal.mk 1 "car" 1000 333) == 333 # 10
  /\ to_dict_pct (SavingsGoal.mk 1 "car" 1000 1000) == 100
  /\ to_dict_pct (SavingsGoal.mk 1 "car" 1000 1050) == 100
  /\ to_dict_pct (SavingsGoal.mk 1 "car" 0 50) == 0.
Proof. vm_compute. repeat split; reflexivity. Qed.
